(** * CineData BR (sondacine): the ANCINE bulletin extractor and aggregator

    A shallow embedding of [app.py]: the two locale-aware numeric cleaners
    ([clean_currency_br], [clean_int_br]), the line scanner of
    [parse_ancine_pdf] (year filter, CPB split, record building, per-document
    error isolation) and the [groupby]/[agg] reduction that follows it.

    Python values are modelled as the interpreter has them: a [str] is a
    sequence of Unicode code points, an [int] is an unbounded integer, a
    [float] is an IEEE-754 binary64 number (the [spec_float] of the standard
    library with [prec = 53] and [emax = 1024]), and a raised exception is an
    explicit [Raise] result. *)

From Stdlib Require Import String Ascii.
From Stdlib Require Import ZArith NArith List Bool Lia.
From Stdlib Require Import Permutation Sorted.
From Stdlib Require Import Floats.SpecFloat.
Import ListNotations.

Set Implicit Arguments.

(* ================================================================== *)
(** * Unicode code points and the character classes of CPython         *)
(* ================================================================== *)

Module Unicode.

(** A character is its code point; a Python [str] is a list of them. *)
Definition char := N.
Definition str := list char.

Definition char_eqb (a b : char) : bool := N.eqb a b.

Fixpoint str_eqb (a b : str) : bool :=
  match a, b with
  | [], [] => true
  | x :: a', y :: b' => char_eqb x y && str_eqb a' b'
  | _, _ => false
  end.

(** Literals are written as Rocq strings and decoded from UTF-8. *)
Fixpoint bytes_of (s : string) : list N :=
  match s with
  | EmptyString => []
  | String a t => N_of_ascii a :: bytes_of t
  end.

Fixpoint utf8_go (bs : list N) (need : nat) (acc : N) : str :=
  match bs with
  | [] => []
  | b :: t =>
      match need with
      | O =>
          if (b <? 128)%N then b :: utf8_go t 0 0%N
          else if (b <? 224)%N then utf8_go t 1 (b - 192)%N
          else if (b <? 240)%N then utf8_go t 2 (b - 224)%N
          else utf8_go t 3 (b - 240)%N
      | S O => (acc * 64 + (b - 128))%N :: utf8_go t 0 0%N
      | S k => utf8_go t k (acc * 64 + (b - 128))%N
      end
  end.

Definition py (s : string) : str := utf8_go (bytes_of s) 0 0%N.

(** [Py_UNICODE_ISSPACE]: the characters [str.strip], [str.split] and the
    regular-expression class [\s] treat as whitespace. *)
Definition space_table : list char :=
  [9; 10; 11; 12; 13; 28; 29; 30; 31; 32; 133; 160; 5760;
   8192; 8193; 8194; 8195; 8196; 8197; 8198; 8199; 8200; 8201; 8202;
   8232; 8233; 8239; 8287; 12288]%N.

Definition is_space (c : char) : bool := existsb (char_eqb c) space_table.

(** [Py_ISSPACE]: the ASCII whitespace that [int] and [float] skip around a
    number (the information separators 28..31 are not part of it). *)
Definition is_ascii_space (c : char) : bool :=
  ((9 <=? c) && (c <=? 13) || (c =? 32))%N.

(** [Py_UNICODE_TODECIMAL]: every character of category Nd belongs to a run
    of ten consecutive code points carrying the values 0..9; the table lists
    the code point of each run's zero (Unicode 14, as shipped with
    CPython 3.11). The class [\d] of a [str] pattern, [int] and [float] all
    read digits through it. *)
Definition decimal_zeros : list char :=
  [48; 1632; 1776; 1984; 2406; 2534; 2662; 2790; 2918; 3046; 3174; 3302;
   3430; 3558; 3664; 3792; 3872; 4160; 4240; 6112; 6160; 6470; 6608; 6784;
   6800; 6992; 7088; 7232; 7248; 42528; 43216; 43264; 43472; 43504; 43600;
   44016; 65296; 66720; 68912; 69734; 69872; 69942; 70096; 70384; 70736;
   70864; 71248; 71360; 71472; 71904; 72016; 72784; 73040; 73120; 92768;
   92864; 93008; 120782; 120792; 120802; 120812; 120822; 123200; 123632;
   125264; 130032]%N.

Definition in_run (c z : char) : bool := ((z <=? c) && (c <? z + 10))%N.

Definition todecimal (c : char) : option N :=
  match find (in_run c) decimal_zeros with
  | Some z => Some (c - z)%N
  | None => None
  end.

Definition is_decimal (c : char) : bool :=
  match todecimal c with Some _ => true | None => false end.

Definition is_ascii_digit (c : char) : bool := ((48 <=? c) && (c <=? 57))%N.

End Unicode.
Export Unicode.

(* ================================================================== *)
(** * The [str] methods the program calls                              *)
(* ================================================================== *)

Module PyStr.

(** [s.startswith(p)] *)
Fixpoint startswith (p s : str) : bool :=
  match p, s with
  | [], _ => true
  | x :: p', y :: s' => char_eqb x y && startswith p' s'
  | _ :: _, [] => false
  end.

(** [p in s] for strings: [p] occurs at some offset of [s]. *)
Fixpoint contains (p s : str) : bool :=
  startswith p s ||
  match s with
  | [] => false
  | _ :: t => contains p t
  end.

Fixpoint lstrip_by (ws : char -> bool) (s : str) : str :=
  match s with
  | [] => []
  | c :: t => if ws c then lstrip_by ws t else s
  end.

Definition strip_by (ws : char -> bool) (s : str) : str :=
  rev (lstrip_by ws (rev (lstrip_by ws s))).

(** [s.strip()] *)
Definition strip (s : str) : str := strip_by is_space s.

(** [s.replace(old, new)] for a non-empty [old]: the occurrences are found
    from the left and do not overlap. [skip] counts the characters of the
    occurrence just replaced that are still to be passed over. *)
Fixpoint replace_go (old new s : str) (skip : nat) : str :=
  match s with
  | [] => []
  | c :: t =>
      match skip with
      | S k => replace_go old new t k
      | O =>
          if startswith old s
          then new ++ replace_go old new t (length old - 1)
          else c :: replace_go old new t 0
      end
  end.

Definition replace (old new s : str) : str := replace_go old new s 0.

(** [s.split()]: the maximal runs of non-whitespace characters. [cur] is
    the token being read, most recent character first. *)
Definition flush (cur : str) (rest : list str) : list str :=
  match cur with
  | [] => rest
  | _ :: _ => rev cur :: rest
  end.

Fixpoint split_go (s cur : str) : list str :=
  match s with
  | [] => flush cur []
  | c :: t =>
      if is_space c then flush cur (split_go t [])
      else split_go t (c :: cur)
  end.

Definition split (s : str) : list str := split_go s [].

(** [s.split(sep)] for a one-character separator: never empty, and empty
    fields are kept. *)
Fixpoint split_on (sep : char) (s : str) : list str :=
  match s with
  | [] => [[]]
  | c :: t =>
      if char_eqb c sep then [] :: split_on sep t
      else
        match split_on sep t with
        | f :: fs => (c :: f) :: fs
        | [] => [[c]]
        end
  end.

(** The longest prefix of characters of a class. *)
Fixpoint leading (p : char -> bool) (s : str) : str :=
  match s with
  | [] => []
  | c :: t => if p c then c :: leading p t else []
  end.

(** [s[:n]] and [s[n:]] for a non-negative [n]. *)
Definition slice_to (n : nat) (s : str) : str := firstn n s.
Definition slice_from (n : nat) (s : str) : str := skipn n s.

(** [l[-1]] and [l[-2]] of a list known to be long enough. *)
Definition last_item (l : list str) : str := last l [].
Definition second_last_item (l : list str) : str := last (removelast l) [].

End PyStr.

(* ================================================================== *)
(** * Exceptions, and the builtins [int] and [float] on strings        *)
(* ================================================================== *)

Module PyNum.

(** The exceptions that can travel through the program: the [ValueError] of
    a failed conversion, and whatever the PDF library raises. *)
Inductive exn : Type :=
  | ValueError
  | ReaderError (msg : str).

Inductive result (A : Type) : Type :=
  | Ok (a : A)
  | Raise (e : exn).
Arguments Ok {A} a.
Arguments Raise {A} e.

Definition bind {A B : Type} (r : result A) (k : A -> result B) : result B :=
  match r with
  | Ok a => k a
  | Raise e => Raise e
  end.

(** [try: body except ValueError: handler] *)
Definition except_ValueError {A : Type} (body : result A) (handler : A)
  : result A :=
  match body with
  | Raise ValueError => Ok handler
  | other => other
  end.

(** Python's [float]: binary64. *)
Definition float := spec_float.
Definition prec : Z := 53.
Definition emax : Z := 1024.

Definition fzero : float := S754_zero false.
Definition fadd : float -> float -> float := SFadd prec emax.
Definition fsub : float -> float -> float := SFsub prec emax.
Definition feqb : float -> float -> bool := SFeqb.
Definition is_nan (f : float) : bool :=
  match f with S754_nan => true | _ => false end.


(** [_PyUnicode_TransformDecimalAndSpaceToASCII]: both conversions first
    rewrite the string to ASCII. Characters below 127 are kept, any other
    whitespace becomes a blank, any other decimal digit becomes its ASCII
    digit, and the first character that is neither becomes ['?'] and ends
    the string. *)
Fixpoint to_ascii (s : str) : str :=
  match s with
  | [] => []
  | c :: t =>
      if (c <? 127)%N then c :: to_ascii t
      else if is_space c then 32%N :: to_ascii t
      else
        match todecimal c with
        | Some d => (48 + d)%N :: to_ascii t
        | None => [63%N]
        end
  end.

(** The value of a string of ASCII digits. *)
Definition digits_value (ds : str) : N :=
  fold_left (fun acc c => (acc * 10 + (c - 48))%N) ds 0%N.

(** An optional sign, ['-'] (45) or ['+'] (43): [(negative, rest)]. *)
Definition take_sign (s : str) : bool * str :=
  match s with
  | [] => (false, s)
  | c :: t =>
      if char_eqb c 45%N then (true, t)
      else if char_eqb c 43%N then (false, t)
      else (false, s)
  end.

(** Underscores (95) may only stand between two digits ([prev] is the
    character just read, 0 at the start). *)
Fixpoint underscores_ok (prev : char) (s : str) : bool :=
  match s with
  | [] => negb (char_eqb prev 95%N)
  | c :: t =>
      (if char_eqb c 95%N then is_ascii_digit prev
       else if char_eqb prev 95%N then is_ascii_digit c
       else true)
      && underscores_ok c t
  end.

Definition remove_underscores (s : str) : str :=
  filter (fun c => negb (char_eqb c 95%N)) s.

Definition nonempty (s : str) : bool :=
  match s with [] => false | _ :: _ => true end.

(** [sys.get_int_max_str_digits()]: longer decimal strings are refused with
    a [ValueError]. *)
Definition int_max_str_digits : nat := 4300.

(** [int(s)] for a string, base 10. *)
Definition py_int (s : str) : result Z :=
  let a := PyStr.strip_by is_ascii_space (to_ascii s) in
  let '(neg, body) := take_sign a in
  let ds := remove_underscores body in
  if underscores_ok 0%N body && nonempty ds && forallb is_ascii_digit ds
     && (length ds <=? int_max_str_digits)%nat
  then Ok (if neg then - Z.of_N (digits_value ds)
           else Z.of_N (digits_value ds))%Z
  else Raise ValueError.

(** The binary64 number nearest to [m * 10^e] (ties to even; an overflow
    gives an infinity, an underflow a subnormal or a zero): the correctly
    rounded quotient of two integers. *)
Definition double_of_decimal (neg : bool) (m : N) (e : Z) : float :=
  match m with
  | N0 => S754_zero neg
  | Npos p =>
      if (0 <=? e)%Z
      then binary_normalize prec emax
             (if neg then Z.neg (p * Z.to_pos (10 ^ e))
              else Z.pos (p * Z.to_pos (10 ^ e)))
             0 false
      else SFdiv prec emax (S754_finite neg p 0)
             (S754_finite false (Z.to_pos (10 ^ (- e))) 0)
  end.

(** [float(n)] for an integer [n]. *)
Definition float_of_int (z : Z) : float := binary_normalize prec emax z 0 false.

Definition lower (c : char) : char :=
  if ((65 <=? c) && (c <=? 90))%N then (c + 32)%N else c.

(** [_Py_parse_inf_or_nan], after the sign: "inf", "infinity" or "nan" in
    any case. *)
Definition parse_inf_or_nan (neg : bool) (s : str) : option float :=
  let l := map lower s in
  if str_eqb l (py "inf") || str_eqb l (py "infinity")
  then Some (S754_infinity neg)
  else if str_eqb l (py "nan") then Some S754_nan
  else None.

(** The longest prefix of ASCII digits, and what follows it. *)
Fixpoint take_digits (s : str) : str :=
  match s with
  | [] => []
  | c :: t => if is_ascii_digit c then c :: take_digits t else []
  end.

Definition span_digits (s : str) : str * str :=
  (take_digits s, PyStr.lstrip_by is_ascii_digit s).

(** The exponent part ["e" [sign] digits] that must end the string. *)
Definition parse_exponent (s : str) : option Z :=
  match s with
  | [] => Some 0%Z
  | c :: t =>
      if char_eqb (lower c) 101%N then
        let '(eneg, t1) := take_sign t in
        if nonempty t1 && forallb is_ascii_digit t1
        then Some (if eneg then - Z.of_N (digits_value t1)
                   else Z.of_N (digits_value t1))%Z
        else None
      else None
  end.

(** A decimal literal [digits [. digits] [exponent]] (the point is 46)
    with at least one digit in its mantissa: [(mantissa, exponent of
    ten)]. *)
Definition parse_decimal (s : str) : option (N * Z) :=
  let '(ip, s1) := span_digits s in
  let '(fp, s2) :=
    match s1 with
    | [] => ([], s1)
    | c :: t => if char_eqb c 46%N then span_digits t else ([], s1)
    end in
  if nonempty (ip ++ fp) then
    match parse_exponent s2 with
    | Some x => Some (digits_value (ip ++ fp), (x - Z.of_nat (length fp))%Z)
    | None => None
    end
  else None.

(** [float(s)] for a string. *)
Definition py_float (s : str) : result float :=
  let a := to_ascii s in
  if existsb (char_eqb 95%N) a && negb (underscores_ok 0%N a)
  then Raise ValueError
  else
    let b := PyStr.strip_by is_ascii_space (remove_underscores a) in
    let '(neg, body) := take_sign b in
    match parse_decimal body with
    | Some (m, e) => Ok (double_of_decimal neg m e)
    | None =>
        match parse_inf_or_nan neg body with
        | Some f => Ok f
        | None => Raise ValueError
        end
    end.

End PyNum.

(* ================================================================== *)
(** * The extraction engine of [app.py]                                *)
(* ================================================================== *)

Module Extractor.
Import PyStr PyNum.

(** The argument of a cleaner is any Python object; only [str] matters. *)
Inductive pyobj : Type :=
  | PyStr (s : str)
  | PyInt (z : Z)
  | PyFloat (f : float)
  | PyNone.

(** Lines 21-23 of [clean_currency_br]: the text handed to [float]. *)
Definition currency_text (x : str) : str :=
  let clean := strip (replace (py "R$") [] x) in
  let clean := replace (py ".") [] clean in
  let clean := replace (py ",") (py ".") clean in
  clean.

(** [clean_currency_br(x)] *)
Definition clean_currency_br (x : pyobj) : result float :=
  match x with
  | PyStr s => except_ValueError (py_float (currency_text s)) fzero
  | _ => Ok fzero
  end.

(** [clean_int_br(x)] *)
Definition clean_int_br (x : pyobj) : result Z :=
  match x with
  | PyStr s =>
      let clean := strip (replace (py ".") [] s) in
      except_ValueError (py_int clean) 0%Z
  | _ => Ok 0%Z
  end.

(** The value of the column [Nacionalidade]: one of two fixed strings. *)
Inductive nationality : Type := Brasileira | Estrangeira.

(** One row of [data]: the dictionary appended for a recognised line. *)
Record Record_ : Type := mkRecord {
  Ano_Exibicao : Z;
  Titulo : str;
  Nacionalidade : nationality;
  Publico : Z;
  Renda : float
}.

(** [year_check = re.compile(r'^(\d{4})\s+')], [year_check.match(line)]:
    four characters of class [\d], then at least one of class [\s]. *)
Definition year_check (line : str) : bool :=
  match line with
  | d1 :: d2 :: d3 :: d4 :: w :: _ =>
      is_decimal d1 && is_decimal d2 && is_decimal d3 && is_decimal d4
      && is_space w
  | _ => false
  end.

(** Lines 61-64: the first filter of the loop, on the stripped line. *)
Definition is_data_line (raw : str) : bool := year_check (strip raw).

(** [cpb_pattern = re.compile(r'([BE]\d{13})')] matched at the head of [s]:
    a ['B'] (66) or an ['E'] (69), then thirteen characters of class [\d]. *)
Definition cpb_at (s : str) : bool :=
  match s with
  | [] => false
  | c :: t =>
      (char_eqb c 66%N || char_eqb c 69%N)
      && (length (firstn 13 t) =? 13)%nat
      && forallb is_decimal (firstn 13 t)
  end.

(** [cpb_pattern.search(s) is not None]: the pattern matches somewhere. *)
Fixpoint has_cpb (s : str) : bool :=
  cpb_at s ||
  match s with
  | [] => false
  | _ :: t => has_cpb t
  end.

(** [cpb_pattern.split(line)]: the text between the matches, found from the
    left without overlap, with each matched code kept as a part of its own.
    [skip] counts the characters of the current match still to pass over. *)
Fixpoint cpb_split_go (s : str) (skip : nat) : list str :=
  match s with
  | [] => [[]]
  | c :: t =>
      match skip with
      | S k => cpb_split_go t k
      | O =>
          if cpb_at s then [] :: firstn 14 s :: cpb_split_go t 13
          else
            match cpb_split_go t 0 with
            | f :: fs => (c :: f) :: fs
            | [] => [[c]]
            end
      end
  end.

Definition cpb_split (line : str) : list str := cpb_split_go line 0.

(** Lines 79-83: the two slices of the header, inside [try]. *)
Definition slice_header (header_part : str) : result (str * str) :=
  Ok (slice_to 4 header_part, strip (slice_from 4 header_part)).

(** The body of the loop over [lines] (lines 61-100): [Ok None] is a line
    passed over, [Ok (Some r)] a row appended to [data], [Raise e] an
    exception that leaves the loop. *)
Definition process_line (raw : str) : result (option Record_) :=
  let line := strip raw in
  if negb (year_check line) then Ok None
  else
    let parts := cpb_split line in
    if (3 <=? length parts)%nat then
      let header_part := strip (hd [] parts) in
      let meta_part := strip (last parts []) in
      match slice_header header_part with
      | Raise _ => Ok None
      | Ok (ano, titulo) =>
          let tokens := split meta_part in
          if (2 <=? length tokens)%nat then
            let renda_raw := last_item tokens in
            let publico_raw := second_last_item tokens in
            let nacionalidade :=
              if contains (py "Brasileira") meta_part
              then Brasileira else Estrangeira in
            bind (py_int ano) (fun ano_exibicao =>
            bind (clean_int_br (PyStr publico_raw)) (fun publico =>
            bind (clean_currency_br (PyStr renda_raw)) (fun renda =>
            Ok (Some (mkRecord ano_exibicao titulo nacionalidade
                               publico renda)))))
          else Ok None
      end
    else Ok None.

(** The list [data] is shared by the whole scan: a loop returns the list as
    it stands together with the exception, if any, that interrupted it. *)
Definition scan_state : Type := (list Record_ * option exn)%type.

Fixpoint scan_lines (lines : list str) (data : list Record_) : scan_state :=
  match lines with
  | [] => (data, None)
  | l :: rest =>
      match process_line l with
      | Ok None => scan_lines rest data
      | Ok (Some r) => scan_lines rest (data ++ [r])
      | Raise e => (data, Some e)
      end
  end.

(** A page of the PDF library: what [page.extract_text()] does. It returns
    a string or [None], or raises. *)
Record page : Type := mkPage { extract_text : result (option str) }.

(** An uploaded file: its [name], and what [pypdf.PdfReader(file)] and the
    iteration over [reader.pages] give. *)
Record document : Type := mkDocument {
  name : str;
  PdfReader : result (list page)
}.

Definition scan_page (p : page) (data : list Record_) : scan_state :=
  match extract_text p with
  | Raise e => (data, Some e)
  | Ok None => (data, None)
  | Ok (Some []) => (data, None)
  | Ok (Some text) => scan_lines (split_on 10%N text) data
  end.

Fixpoint scan_pages (ps : list page) (data : list Record_) : scan_state :=
  match ps with
  | [] => (data, None)
  | p :: rest =>
      match scan_page p data with
      | (data', None) => scan_pages rest data'
      | (data', Some e) => (data', Some e)
      end
  end.

(** The body of [try] (lines 53-100) for one file. *)
Definition scan_document (d : document) (data : list Record_) : scan_state :=
  match PdfReader d with
  | Raise e => (data, Some e)
  | Ok ps => scan_pages ps data
  end.

(** One call of [st.error]: the file's name and the exception shown. *)
Definition error_report : Type := (str * exn)%type.

Fixpoint scan_documents (ds : list document) (data : list Record_)
    (errors : list error_report) : list Record_ * list error_report :=
  match ds with
  | [] => (data, errors)
  | d :: rest =>
      match scan_document d data with
      | (data', None) => scan_documents rest data' errors
      | (data', Some e) => scan_documents rest data' (errors ++ [(name d, e)])
      end
  end.

(** [parse_ancine_pdf(uploaded_files)]: the rows of the returned data frame
    and the errors reported on the way. *)
Definition parse_ancine_pdf (uploaded_files : list document)
  : list Record_ * list error_report :=
  scan_documents uploaded_files [] [].

(** A character that no integer literal can hold: neither a decimal digit,
    nor whitespace, nor a point (46), an underscore (95) or a sign (43,
    45). *)
Definition foreign (c : char) : bool :=
  negb (is_decimal c || is_space c || char_eqb c 46%N || char_eqb c 95%N
        || char_eqb c 43%N || char_eqb c 45%N).

(** What remains of a foreign character after the rewriting to ASCII. *)
Definition stray (c : char) : bool :=
  negb (is_ascii_digit c || is_ascii_space c || char_eqb c 95%N
        || char_eqb c 43%N || char_eqb c 45%N).

(** The rows one line adds to [data]: one row or none. *)
Definition line_rows (raw : str) : list Record_ :=
  match process_line raw with
  | Ok (Some r) => [r]
  | _ => []
  end.

(** Every second part of a split is a registration code: fourteen
    characters on which the pattern matches. *)
Fixpoint codes_at_odd (parts : list str) : bool :=
  match parts with
  | _ :: code :: rest =>
      cpb_at code && (length code =? 14)%nat && codes_at_odd rest
  | _ => true
  end.

(** The rows a file adds to the table when scanned on its own (up to the
    point where it fails, if it does), and the error reported for it. *)
Definition rows_of (d : document) : list Record_ := fst (scan_document d []).

Definition errors_of (d : document) : list error_report :=
  match snd (scan_document d []) with
  | Some e => [(name d, e)]
  | None => []
  end.

End Extractor.

(* ================================================================== *)
(** * The aggregation [df_raw.groupby(...).agg(...)]                   *)
(* ================================================================== *)

Module Aggregator.
Import PyStr PyNum Extractor.

Definition nationality_eqb (a b : nationality) : bool :=
  match a, b with
  | Brasileira, Brasileira | Estrangeira, Estrangeira => true
  | _, _ => false
  end.

(** The group key: the columns [Titulo_Norm] and [Nacionalidade]. *)
Definition key : Type := (str * nationality)%type.

Definition key_eqb (a b : key) : bool :=
  str_eqb (fst a) (fst b) && nationality_eqb (snd a) (snd b).

(** The order of Python strings (by code point), then of the two
    nationality strings. *)
Fixpoint str_ltb (a b : str) : bool :=
  match a, b with
  | _, [] => false
  | [], _ :: _ => true
  | x :: a', y :: b' =>
      if (x <? y)%N then true
      else if (y <? x)%N then false
      else str_ltb a' b'
  end.

Definition nationality_ltb (a b : nationality) : bool :=
  match a, b with
  | Brasileira, Estrangeira => true
  | _, _ => false
  end.

Definition key_ltb (a b : key) : bool :=
  str_ltb (fst a) (fst b)
  || (str_eqb (fst a) (fst b) && nationality_ltb (snd a) (snd b)).

(** One row of [df_grouped]. *)
Record GroupedRow : Type := mkGrouped {
  g_Titulo_Norm : str;
  g_Nacionalidade : nationality;
  g_Titulo : str;
  g_Publico : Z;
  g_Renda : float;
  g_Ano_Exibicao : Z
}.

(** The ['sum'] of a [float64] column, as pandas' [group_sum] computes it:
    a compensated (Kahan) sum over the rows of the group in table order,
    passing over NaN. The state is [(sumx, compensation)]. *)
Definition kahan_step (st : float * float) (val : float) : float * float :=
  if is_nan val then st
  else
    let y := fsub val (snd st) in
    let t := fadd (fst st) y in
    let c := fsub (fsub t (fst st)) y in
    (t, if is_nan c then fzero else c).

Definition sum_float (vals : list float) : float :=
  fst (fold_left kahan_step vals (fzero, fzero)).

(** The ['sum'] and the ['min'] of an integer column, on the integers
    themselves (a column that pandas stores as [int64] is summed modulo
    2^64; the wrap-around is not modelled). *)
Definition sum_int (vals : list Z) : Z := fold_left Z.add vals 0%Z.

Definition min_int (first : Z) (rest : list Z) : Z :=
  fold_left Z.min rest first.

(** The ['min'] of the column of a group (a group is never empty). *)
Definition min_of (l : list Z) : Z :=
  match l with
  | [] => 0%Z
  | x :: rest => min_int x rest
  end.

Section GroupBy.

(** [str.upper] maps every character through the Unicode upper-case table
    of the interpreter; the reduction is studied for any such function. *)
Variable upper : str -> str.

(** [df_raw['Titulo'].str.upper().str.strip()] *)
Definition Titulo_Norm (r : Record_) : str := strip (upper (Titulo r)).

Definition key_of (r : Record_) : key := (Titulo_Norm r, Nacionalidade r).

(** The rows of one group, in table order. *)
Definition group_rows (k : key) (df : list Record_) : list Record_ :=
  filter (fun r => key_eqb k (key_of r)) df.

(** The distinct keys in increasing order ([groupby] sorts its groups). *)
Fixpoint insert_key (k : key) (ks : list key) : list key :=
  match ks with
  | [] => [k]
  | h :: t =>
      if key_eqb k h then ks
      else if key_ltb k h then k :: ks
      else h :: insert_key k t
  end.

Definition group_keys (df : list Record_) : list key :=
  fold_right (fun r ks => insert_key (key_of r) ks) [] df.

(** [.agg({'Titulo': 'first', 'Publico': 'sum', 'Renda': 'sum',
    'Ano_Exibicao': 'min'})] on the rows of one group. *)
Definition agg (k : key) (rows : list Record_) : GroupedRow :=
  mkGrouped (fst k) (snd k)
    (match rows with [] => [] | r :: _ => Titulo r end)
    (sum_int (map Publico rows))
    (sum_float (map Renda rows))
    (min_of (map Ano_Exibicao rows)).

(** [df_grouped] *)
Definition df_grouped (df_raw : list Record_) : list GroupedRow :=
  map (fun k => agg k (group_rows k df_raw)) (group_keys df_raw).

(** The row of [df_grouped] for a key, if the key has a group. *)
Definition grouped_row (k : key) (df_raw : list Record_) : option GroupedRow :=
  find (fun g => key_eqb k (g_Titulo_Norm g, g_Nacionalidade g))
       (df_grouped df_raw).

End GroupBy.

(** Insertion in a list of distinct keys kept in increasing order;
    [insert_key] is the instance for the keys of [df_grouped]. *)
Fixpoint insert_sorted {K : Type} (eqb ltb : K -> K -> bool) (k : K)
    (ks : list K) : list K :=
  match ks with
  | [] => [k]
  | h :: t =>
      if eqb k h then ks
      else if ltb k h then k :: ks
      else h :: insert_sorted eqb ltb k t
  end.

(** The ['max'] of an integer column that is not empty. *)
Definition max_of (l : list Z) : Z :=
  match l with
  | [] => 0%Z
  | x :: rest => fold_left Z.max rest x
  end.

(** Lines 157-158: the bounds of the period slider,
    [int(df_grouped['Ano_Exibicao'].min())] and [....max()]. *)
Definition slider_min_value (grouped : list GroupedRow) : Z :=
  min_of (map g_Ano_Exibicao grouped).

Definition slider_max_value (grouped : list GroupedRow) : Z :=
  max_of (map g_Ano_Exibicao grouped).







End Aggregator.

(* ================================================================== *)
(** * The specification's wording, and sample inputs                   *)
(* ================================================================== *)

Module Spec.
Import PyStr PyNum Extractor.

(** The classifier as the specification words it: the trimmed line begins
    with exactly four ASCII digits followed by whitespace. *)
Definition spec_is_data_line (raw : str) : bool :=
  let line := strip raw in
  (length (take_digits line) =? 4)%nat
  && match skipn 4 line with
     | w :: _ => is_space w
     | [] => false
     end.

(** An amount in the Brazilian format: an integer part made of digits and
    thousands separators (46), a decimal comma, and decimals. Its value is
    the binary64 number nearest to the decimal number written (an infinity
    when the number is beyond the binary64 range). *)
Definition br_integer_part (ip : str) : bool :=
  forallb (fun c => is_ascii_digit c || char_eqb c 46%N) ip
  && existsb is_ascii_digit ip.

Definition br_amount_value (ip fp : str) : float :=
  double_of_decimal false (digits_value (filter is_ascii_digit ip ++ fp))
                    (- Z.of_nat (length fp)).

(** The raw table as the specification words it: the rows of the documents
    that were scanned without an error, and of no other. *)
Definition scanned_ok (d : document) : bool :=
  match snd (scan_document d []) with
  | None => true
  | Some _ => false
  end.

Definition spec_raw_table (ds : list document) : list Record_ :=
  flat_map (fun d => fst (scan_document d [])) (filter scanned_ok ds).

End Spec.

Module Samples.
Import PyStr PyNum Extractor Aggregator.

(** The line of the end-to-end example. *)
Definition example_line : str :=
  py "2009 Filme Exemplo   B0901024500000   Ficção Brasileira 35mm 10.000 50.000,00".

Definition example_record : Record_ :=
  mkRecord 2009 (py "Filme Exemplo") Brasileira 10000 (float_of_int 50000).

(** A line whose header is the year alone. *)
Definition untitled_line : str :=
  py "2009 B0901024500000 Ficção Brasileira 35mm 10.000 50.000,00".


(** A line whose year is written with Arabic-Indic digits. *)
Definition arabic_line : str := py "٢٠٠٩ Filme".


(** A file whose second page cannot be read. *)
Definition half_read : document :=
  mkDocument (py "boletim.pdf")
    (Ok [mkPage (Ok (Some example_line));
         mkPage (Raise (ReaderError (py "stream error")))]).

(** A file that cannot be opened, and one that reads well. *)
Definition corrupt : document :=
  mkDocument (py "corrupt.pdf") (Raise (ReaderError (py "EOF marker not found"))).

Definition valid : document :=
  mkDocument (py "valid.pdf") (Ok [mkPage (Ok (Some example_line))]).

(** Three rows of one film with revenues 0.10, 0.70 and 0.20. *)
Definition row (year : Z) (cents : N) : Record_ :=
  mkRecord year (py "Filme Exemplo") Brasileira 100
           (double_of_decimal false cents (-2)).

Definition rows_abc : list Record_ := [row 2009 10; row 2010 70; row 2011 20].
Definition rows_cba : list Record_ := [row 2011 20; row 2010 70; row 2009 10].

End Samples.

(* ================================================================== *)
(** * Facts about the character classes                                *)
(* ================================================================== *)

Module UnicodeFacts.

Lemma char_eqb_eq (a b : char) : char_eqb a b = true <-> a = b.
Proof. apply N.eqb_eq. Qed.

Lemma char_eqb_neq (a b : char) : char_eqb a b = false <-> a <> b.
Proof. apply N.eqb_neq. Qed.

Lemma str_eqb_eq (a b : str) : str_eqb a b = true <-> a = b.
Proof.
  revert b; induction a as [|x a IH]; intros [|y b]; simpl;
    try (split; [discriminate | discriminate]); try tauto.
  rewrite andb_true_iff, char_eqb_eq, IH.
  split; [intros [-> ->]; reflexivity | intros H; inversion H; auto].
Qed.

Lemma str_eqb_refl (a : str) : str_eqb a a = true.
Proof. apply str_eqb_eq; reflexivity. Qed.

Lemma is_space_table (c : char) : is_space c = true <-> In c space_table.
Proof.
  unfold is_space. rewrite existsb_exists. split.
  - intros [x [Hin Hx]]. apply char_eqb_eq in Hx. subst. exact Hin.
  - intros Hin. exists c. split; [exact Hin | apply N.eqb_refl].
Qed.

Lemma space_not_decimal (c : char) : is_space c = true -> is_decimal c = false.
Proof.
  intros H. apply is_space_table in H. unfold space_table in H. simpl in H.
  repeat (destruct H as [<- | H]; [reflexivity |]). contradiction.
Qed.

Lemma decimal_not_space (c : char) : is_decimal c = true -> is_space c = false.
Proof.
  intros H. destruct (is_space c) eqn:E; [|reflexivity].
  apply space_not_decimal in E. congruence.
Qed.

Lemma todecimal_run (c : char) (d : N) :
  todecimal c = Some d ->
  exists z, In z decimal_zeros /\ (z <= c < z + 10)%N /\ d = (c - z)%N.
Proof.
  unfold todecimal. destruct (find (in_run c) decimal_zeros) as [z|] eqn:E;
    [|discriminate].
  intros H; inversion H; subst. apply find_some in E. destruct E as [Hin Hr].
  unfold in_run in Hr. apply andb_true_iff in Hr. destruct Hr as [H1 H2].
  apply N.leb_le in H1. apply N.ltb_lt in H2. exists z. auto.
Qed.

Lemma todecimal_lt10 (c : char) (d : N) : todecimal c = Some d -> (d < 10)%N.
Proof.
  intros H. apply todecimal_run in H. destruct H as [z [_ [Hz ->]]]. lia.
Qed.

Lemma todecimal_ascii (c : char) (d : N) :
  (c < 127)%N -> todecimal c = Some d -> c = (48 + d)%N.
Proof.
  intros Hc H. apply todecimal_run in H. destruct H as [z [Hin [Hz ->]]].
  unfold decimal_zeros in Hin. simpl in Hin.
  destruct Hin as [<- | Hin]; [lia |].
  repeat (destruct Hin as [<- | Hin]; [lia |]). contradiction.
Qed.

Lemma ascii_digit_decimal (c : char) :
  is_ascii_digit c = true -> is_decimal c = true.
Proof.
  unfold is_ascii_digit, is_decimal, todecimal, decimal_zeros. intros H.
  apply andb_true_iff in H. destruct H as [H1 H2].
  apply N.leb_le in H1. apply N.leb_le in H2. cbn [find].
  replace (in_run c 48%N) with true; [reflexivity |].
  symmetry. unfold in_run. apply andb_true_iff. split;
    [apply N.leb_le | apply N.ltb_lt]; lia.
Qed.

Lemma decimal_ascii_digit (c : char) :
  (c < 127)%N -> is_decimal c = true -> is_ascii_digit c = true.
Proof.
  unfold is_decimal. intros Hc H. destruct (todecimal c) as [d|] eqn:E;
    [|discriminate].
  pose proof (todecimal_lt10 _ E). apply todecimal_ascii in E; [|exact Hc].
  unfold is_ascii_digit. apply andb_true_iff. split; apply N.leb_le; lia.
Qed.

Lemma decimal_not_letter (c : char) :
  is_decimal c = true -> char_eqb c 66%N || char_eqb c 69%N = false.
Proof.
  intros H. apply orb_false_iff. split; apply char_eqb_neq; intros ->;
    vm_compute in H; discriminate.
Qed.

Lemma ascii_digit_range (c : char) :
  is_ascii_digit c = true <-> (48 <= c <= 57)%N.
Proof.
  unfold is_ascii_digit. rewrite andb_true_iff, !N.leb_le. tauto.
Qed.

Lemma ascii_digit_not_space (c : char) :
  is_ascii_digit c = true -> is_ascii_space c = false.
Proof.
  rewrite ascii_digit_range. intros H. unfold is_ascii_space.
  apply orb_false_iff. split.
  - apply andb_false_iff. right. apply N.leb_gt. lia.
  - apply N.eqb_neq. lia.
Qed.

End UnicodeFacts.

(* ================================================================== *)
(** * Facts about the string methods                                   *)
(* ================================================================== *)

Module PyStrFacts.
Import PyStr UnicodeFacts.

Section Strip.
Variable ws : char -> bool.

Lemma lstrip_by_all (u : str) : forallb ws u = true -> lstrip_by ws u = [].
Proof.
  induction u as [|c u IH]; simpl; [reflexivity |].
  intros H. apply andb_true_iff in H. destruct H as [-> H]. auto.
Qed.

Lemma lstrip_by_app_all (u v : str) :
  forallb ws u = true -> lstrip_by ws (u ++ v) = lstrip_by ws v.
Proof.
  induction u as [|c u IH]; simpl; [reflexivity |].
  intros H. apply andb_true_iff in H. destruct H as [-> H]. auto.
Qed.

Lemma lstrip_by_app_stop (u : str) (x : char) (r : str) :
  ws x = false -> lstrip_by ws (u ++ x :: r) = lstrip_by ws u ++ x :: r.
Proof.
  intros Hx. induction u as [|c u IH]; simpl.
  - rewrite Hx. reflexivity.
  - destruct (ws c); [exact IH | reflexivity].
Qed.

Lemma lstrip_by_cases (s : str) :
  lstrip_by ws s = [] \/
  exists x r, lstrip_by ws s = x :: r /\ ws x = false.
Proof.
  induction s as [|c s IH]; simpl; [left; reflexivity |].
  destruct (ws c) eqn:E; [exact IH |]. right. exists c, s. auto.
Qed.

Lemma lstrip_by_idem (s : str) :
  lstrip_by ws (lstrip_by ws s) = lstrip_by ws s.
Proof.
  destruct (lstrip_by_cases s) as [-> | [x [r [-> Hx]]]]; simpl;
    [reflexivity | rewrite Hx; reflexivity].
Qed.



(** Stripping a string that starts with a kept character only trims its
    right end. *)
Lemma rstrip_cons (x : char) (r : str) :
  ws x = false ->
  rev (lstrip_by ws (rev (x :: r))) = x :: rev (lstrip_by ws (rev r)).
Proof.
  intros Hx. simpl rev at 2. rewrite lstrip_by_app_stop by exact Hx.
  rewrite rev_app_distr. reflexivity.
Qed.

Lemma strip_by_cons (x : char) (r : str) :
  ws x = false -> strip_by ws (x :: r) = x :: rev (lstrip_by ws (rev r)).
Proof.
  intros Hx. unfold strip_by. simpl lstrip_by at 2. rewrite Hx.
  apply rstrip_cons. exact Hx.
Qed.

Lemma strip_by_idem (s : str) : strip_by ws (strip_by ws s) = strip_by ws s.
Proof.
  unfold strip_by at 2 3.
  destruct (lstrip_by_cases s) as [-> | [x [r [-> Hx]]]]; [reflexivity |].
  rewrite rstrip_cons by exact Hx. rewrite strip_by_cons by exact Hx.
  f_equal. rewrite rev_involutive, lstrip_by_idem. reflexivity.
Qed.

(** A string with kept characters at both ends is left alone, whatever
    whitespace surrounds it. *)
Lemma strip_by_sandwich (a b c : str) :
  forallb ws a = true -> forallb ws c = true ->
  lstrip_by ws b = b -> lstrip_by ws (rev b) = rev b ->
  strip_by ws (a ++ b ++ c) = b.
Proof.
  intros Ha Hc Hb Hrb. unfold strip_by.
  rewrite lstrip_by_app_all by exact Ha.
  destruct b as [|x b'].
  - simpl. rewrite (lstrip_by_all c Hc). reflexivity.
  - assert (Hx : ws x = false).
    { simpl in Hb. destruct (ws x); [|reflexivity].
      exfalso. assert (L : (length (lstrip_by ws b') <= length b')%nat).
      { clear. induction b' as [|y b IH]; simpl; [lia |].
        destruct (ws y); simpl; lia. }
      rewrite Hb in L. simpl in L. lia. }
    change ((x :: b') ++ c) with (x :: b' ++ c). simpl lstrip_by at 2.
    rewrite Hx. change (x :: b' ++ c) with ((x :: b') ++ c).
    rewrite rev_app_distr, lstrip_by_app_all, Hrb, rev_involutive;
      [reflexivity |].
    rewrite forallb_forall in *. intros y Hy. apply Hc. apply in_rev. exact Hy.
Qed.

End Strip.

Lemma startswith_app (p s : str) : startswith p (p ++ s) = true.
Proof.
  induction p as [|x p IH]; simpl; [reflexivity |].
  unfold char_eqb. rewrite N.eqb_refl. exact IH.
Qed.

Lemma replace_go_skip (old new p s : str) :
  replace_go old new (p ++ s) (length p) = replace_go old new s 0.
Proof. induction p as [|x p IH]; simpl; [reflexivity | exact IH]. Qed.

Lemma replace_occurrence (o : char) (old new s : str) :
  replace (o :: old) new ((o :: old) ++ s) = new ++ replace (o :: old) new s.
Proof.
  unfold replace. change ((o :: old) ++ s) with (o :: old ++ s).
  cbn [replace_go]. change (o :: old ++ s) with ((o :: old) ++ s).
  rewrite startswith_app.
  replace (length (o :: old) - 1) with (length old) by (simpl; lia).
  rewrite replace_go_skip. reflexivity.
Qed.

Lemma replace_app_absent (o : char) (old new s1 s2 : str) :
  ~ In o s1 ->
  replace (o :: old) new (s1 ++ s2) = s1 ++ replace (o :: old) new s2.
Proof.
  unfold replace. induction s1 as [|c s1 IH]; intros Hn; simpl;
    [reflexivity |].
  replace (char_eqb o c) with false.
  - simpl. f_equal. apply IH. intros H. apply Hn. right. exact H.
  - symmetry. apply char_eqb_neq. intros ->. apply Hn. left. reflexivity.
Qed.

Lemma replace_absent (o : char) (old new s : str) :
  ~ In o s -> replace (o :: old) new s = s.
Proof.
  intros H. rewrite <- (app_nil_r s) at 1.
  rewrite replace_app_absent by exact H. unfold replace. simpl.
  apply app_nil_r.
Qed.

(** Replacing one character by nothing, or by another character. *)
Lemma replace_char_remove (c : char) (s : str) :
  replace [c] [] s = filter (fun x => negb (char_eqb x c)) s.
Proof.
  unfold replace. induction s as [|x s IH]; simpl; [reflexivity |].
  rewrite andb_true_r. rewrite (N.eqb_sym c x) at 1. fold (char_eqb x c).
  destruct (char_eqb x c); simpl; [exact IH | f_equal; exact IH].
Qed.

Lemma replace_char_map (c d : char) (s : str) :
  replace [c] [d] s = map (fun x => if char_eqb x c then d else x) s.
Proof.
  unfold replace. induction s as [|x s IH]; simpl; [reflexivity |].
  rewrite andb_true_r. rewrite (N.eqb_sym c x) at 1. fold (char_eqb x c).
  destruct (char_eqb x c); simpl; f_equal; exact IH.
Qed.

Lemma split_on_nonempty (sep : char) (s : str) : split_on sep s <> [].
Proof.
  destruct s as [|c s]; simpl; [discriminate |].
  destruct (char_eqb c sep); [discriminate |].
  destruct (split_on sep s); discriminate.
Qed.

End PyStrFacts.

(* ================================================================== *)
(** * Facts about [int] and [float]                                    *)
(* ================================================================== *)

Module PyNumFacts.
Import PyStr PyNum UnicodeFacts PyStrFacts.

Lemma to_ascii_ascii (s : str) :
  forallb (fun c => (c <? 127)%N) s = true -> to_ascii s = s.
Proof.
  induction s as [|c s IH]; simpl; [reflexivity |].
  intros H. apply andb_true_iff in H. destruct H as [-> H].
  f_equal. exact (IH H).
Qed.


Lemma to_ascii_decimal (s : str) :
  forallb is_decimal s = true ->
  forallb is_ascii_digit (to_ascii s) = true
  /\ length (to_ascii s) = length s.
Proof.
  induction s as [|c s IH]; cbn [to_ascii forallb length]; [auto |].
  intros H. apply andb_true_iff in H. destruct H as [Hc H].
  destruct (IH H) as [IH1 IH2].
  destruct (c <? 127)%N eqn:E.
  - apply N.ltb_lt in E. cbn [forallb length].
    rewrite (decimal_ascii_digit E Hc), IH1, IH2. auto.
  - rewrite (decimal_not_space _ Hc). unfold is_decimal in Hc.
    destruct (todecimal c) as [d|] eqn:Ed; [|discriminate].
    apply todecimal_lt10 in Ed. cbn [forallb length]. rewrite IH1, IH2.
    split; [|reflexivity].
    rewrite andb_true_r. apply ascii_digit_range. lia.
Qed.

Section DigitStrings.
Variable ds : str.
Hypothesis Hds : forallb is_ascii_digit ds = true.

Lemma digits_ascii : forallb (fun c => (c <? 127)%N) ds = true.
Proof.
  rewrite forallb_forall in *. intros c Hc. apply Hds in Hc.
  apply ascii_digit_range in Hc. apply N.ltb_lt. lia.
Qed.

Lemma digits_no_space : forallb (fun c => negb (is_ascii_space c)) ds = true.
Proof.
  rewrite forallb_forall in *. intros c Hc. apply Hds in Hc.
  rewrite (ascii_digit_not_space _ Hc). reflexivity.
Qed.

Lemma digits_no_underscore : remove_underscores ds = ds.
Proof.
  unfold remove_underscores. apply forallb_filter_id.
  rewrite forallb_forall in *. intros c Hc. apply Hds in Hc.
  apply ascii_digit_range in Hc. apply negb_true_iff, char_eqb_neq. lia.
Qed.

Lemma digits_take_sign : take_sign ds = (false, ds).
Proof.
  destruct ds as [|c t]; [reflexivity |]. simpl in Hds.
  apply andb_true_iff in Hds. destruct Hds as [Hc _].
  apply ascii_digit_range in Hc. unfold take_sign.
  replace (char_eqb c 45%N) with false by (symmetry; apply char_eqb_neq; lia).
  replace (char_eqb c 43%N) with false by (symmetry; apply char_eqb_neq; lia).
  reflexivity.
Qed.

Lemma digits_take_digits (r : str) :
  match r with [] => true | x :: _ => negb (is_ascii_digit x) end = true ->
  take_digits (ds ++ r) = ds /\ lstrip_by is_ascii_digit (ds ++ r) = r.
Proof.
  intros Hr. induction ds as [|c t IH]; simpl.
  - destruct r as [|x r']; simpl; [auto |].
    apply negb_true_iff in Hr. rewrite Hr. auto.
  - simpl in Hds. apply andb_true_iff in Hds. destruct Hds as [Hc Ht].
    rewrite Hc. destruct (IH Ht) as [-> ->]. auto.
Qed.

End DigitStrings.

Lemma underscores_ok_digits (ds : str) (prev : char) :
  forallb is_ascii_digit ds = true -> char_eqb prev 95%N = false ->
  underscores_ok prev ds = true.
Proof.
  revert prev. induction ds as [|c t IH]; simpl; intros prev Hds Hp.
  - rewrite Hp. reflexivity.
  - apply andb_true_iff in Hds. destruct Hds as [Hc Ht].
    assert (Hc' : char_eqb c 95%N = false).
    { apply ascii_digit_range in Hc. apply char_eqb_neq. lia. }
    rewrite Hc', Hp. simpl. apply IH; assumption.
Qed.

Lemma strip_by_none (ws : char -> bool) (s : str) :
  forallb (fun c => negb (ws c)) s = true -> strip_by ws s = s.
Proof.
  intros H.
  assert (L : forall u, forallb (fun c => negb (ws c)) u = true ->
                        lstrip_by ws u = u).
  { intros [|x u]; simpl; [reflexivity |]. intros Hu.
    apply andb_true_iff in Hu. destruct Hu as [Hx _].
    apply negb_true_iff in Hx. rewrite Hx. reflexivity. }
  unfold strip_by. rewrite (L s H), L, rev_involutive; [reflexivity |].
  rewrite forallb_forall in *. intros c Hc. apply H, in_rev. exact Hc.
Qed.

Lemma nonempty_true (s : str) : nonempty s = true <-> s <> [].
Proof. destruct s; simpl; split; congruence. Qed.

(** [int] succeeds on any non-empty run of ASCII digits of moderate
    length, and so on any such run of decimal characters. *)
Lemma py_int_digits (ds : str) :
  ds <> [] -> forallb is_ascii_digit ds = true ->
  (length ds <= int_max_str_digits)%nat ->
  py_int ds = Ok (Z.of_N (digits_value ds)).
Proof.
  intros Hne Hds Hlen. unfold py_int.
  rewrite (to_ascii_ascii _ (digits_ascii _ Hds)).
  rewrite (strip_by_none _ _ (digits_no_space _ Hds)).
  rewrite (digits_take_sign _ Hds), (digits_no_underscore _ Hds).
  rewrite (@underscores_ok_digits ds 0%N Hds eq_refl).
  rewrite (proj2 (nonempty_true ds) Hne), Hds.
  rewrite (proj2 (Nat.leb_le _ _) Hlen). reflexivity.
Qed.

Lemma to_ascii_idem_digits (s : str) :
  forallb is_ascii_digit (to_ascii s) = true ->
  to_ascii (to_ascii s) = to_ascii s.
Proof. intros H. apply to_ascii_ascii, digits_ascii, H. Qed.

Lemma py_int_to_ascii (s : str) :
  forallb is_ascii_digit (to_ascii s) = true ->
  py_int s = py_int (to_ascii s).
Proof. intros H. unfold py_int. rewrite (to_ascii_idem_digits _ H). reflexivity. Qed.

Lemma py_int_decimal (s : str) :
  s <> [] -> forallb is_decimal s = true ->
  (length s <= int_max_str_digits)%nat ->
  py_int s = Ok (Z.of_N (digits_value (to_ascii s))).
Proof.
  intros Hne Hs Hlen. destruct (to_ascii_decimal _ Hs) as [Hd Hl].
  rewrite (py_int_to_ascii _ Hd). apply py_int_digits.
  - intros E. rewrite E in Hl. destruct s; [congruence | discriminate].
  - exact Hd.
  - rewrite Hl. exact Hlen.
Qed.

Lemma digits_value_bound (ds : str) :
  forallb is_ascii_digit ds = true ->
  (digits_value ds < 10 ^ N.of_nat (length ds))%N.
Proof.
  unfold digits_value. intros Hds.
  assert (G : forall a,
             (fold_left (fun acc c => acc * 10 + (c - 48)) ds a + 1
              <= (a + 1) * 10 ^ N.of_nat (length ds))%N).
  { induction ds as [|c t IH]; intros a.
    - simpl. lia.
    - simpl in Hds. apply andb_true_iff in Hds. destruct Hds as [Hc Ht].
      apply ascii_digit_range in Hc. cbn [fold_left length].
      etransitivity; [apply (IH Ht) |].
      rewrite Nat2N.inj_succ, N.pow_succ_r'.
      assert (P : (0 < 10 ^ N.of_nat (length t))%N)
        by (apply N.neq_0_lt_0, N.pow_nonzero; discriminate).
      nia. }
  specialize (G 0%N). lia.
Qed.




End PyNumFacts.

(* ================================================================== *)
(** * Facts about the extractor                                        *)
(* ================================================================== *)

Module ExtractorFacts.
Import PyStr PyNum Extractor UnicodeFacts PyStrFacts PyNumFacts.

(** ** The cleaners never raise *)

Lemma py_int_raises (s : str) (e : exn) : py_int s = Raise e -> e = ValueError.
Proof.
  unfold py_int. destruct (take_sign _) as [neg body].
  destruct (_ && _); [discriminate | congruence].
Qed.

Lemma py_float_raises (s : str) (e : exn) :
  py_float s = Raise e -> e = ValueError.
Proof.
  unfold py_float. destruct (_ && _); [congruence |].
  destruct (take_sign _) as [neg body].
  destruct (parse_decimal body) as [[m x]|]; [discriminate |].
  destruct (parse_inf_or_nan neg body); [discriminate | congruence].
Qed.

Lemma except_ValueError_ok (A : Type) (body : result A) (handler : A) :
  (forall e, body = Raise e -> e = ValueError) ->
  except_ValueError body handler
  = Ok (match body with Ok v => v | Raise _ => handler end).
Proof.
  intros H. destruct body as [v|e]; [reflexivity |].
  rewrite (H e eq_refl). reflexivity.
Qed.

Lemma clean_int_br_total (x : pyobj) : exists v, clean_int_br x = Ok v.
Proof.
  destruct x as [s| | |]; simpl; eauto.
  rewrite except_ValueError_ok by apply py_int_raises. eauto.
Qed.

Lemma clean_currency_br_total (x : pyobj) :
  exists v, clean_currency_br x = Ok v.
Proof.
  destruct x as [s| | |]; simpl; eauto.
  rewrite except_ValueError_ok by apply py_float_raises. eauto.
Qed.

(** ** The split on the registration code *)

Lemma cpb_split_go_nonempty (s : str) (k : nat) : cpb_split_go s k <> [].
Proof.
  revert k. induction s as [|c s IH]; intros k; simpl; [discriminate |].
  destruct k; [|apply IH].
  destruct (_ && _); [discriminate |].
  destruct (cpb_split_go s 0); discriminate.
Qed.

(** Without a match the split returns the line alone. *)
Lemma cpb_split_no_match (s : str) : has_cpb s = false -> cpb_split s = [s].
Proof.
  unfold cpb_split. induction s as [|c s IH]; intros H; [reflexivity |].
  cbn [has_cpb] in H. apply orb_false_iff in H. destruct H as [H1 H2].
  cbn [cpb_split_go]. rewrite H1, (IH H2). reflexivity.
Qed.

(** A character that is not one of the two letters is copied to the first
    part and the split goes on behind it. *)
Lemma cpb_split_cons (c : char) (s : str) :
  char_eqb c 66%N || char_eqb c 69%N = false ->
  exists f fs, cpb_split_go s 0 = f :: fs
               /\ cpb_split_go (c :: s) 0 = (c :: f) :: fs.
Proof.
  intros Hc. cbn [cpb_split_go cpb_at]. rewrite Hc. cbn [andb].
  destruct (cpb_split_go s 0) as [|f fs] eqn:E.
  - exfalso. exact (cpb_split_go_nonempty _ _ E).
  - exists f, fs. auto.
Qed.

(** ** The header of a classified line *)

Lemma year_check_shape (line : str) :
  year_check line = true <->
  exists d1 d2 d3 d4 w rest,
    line = d1 :: d2 :: d3 :: d4 :: w :: rest
    /\ forallb is_decimal [d1; d2; d3; d4] = true /\ is_space w = true.
Proof.
  split.
  - destruct line as [|d1 [|d2 [|d3 [|d4 [|w rest]]]]]; try discriminate.
    cbn [year_check forallb]. rewrite !andb_true_iff.
    intros [[[[H1 H2] H3] H4] Hw]. exists d1, d2, d3, d4, w, rest.
    rewrite H1, H2, H3, H4. auto.
  - intros [d1 [d2 [d3 [d4 [w [rest [-> [Hd Hw]]]]]]]].
    cbn [year_check forallb] in *. rewrite !andb_true_iff in Hd.
    destruct Hd as [-> [-> [-> [-> _]]]]. rewrite Hw. reflexivity.
Qed.

(** The first part of the split keeps the four digits of the year, and so
    does the stripped header. *)
Lemma header_of_classified (line : str) :
  year_check line = true ->
  exists f,
    strip (hd [] (cpb_split line)) = firstn 4 line ++ f
    /\ length (firstn 4 line) = 4%nat
    /\ forallb is_decimal (firstn 4 line) = true.
Proof.
  intros H. apply year_check_shape in H.
  destruct H as [d1 [d2 [d3 [d4 [w [rest [-> [Hd Hw]]]]]]]].
  cbn [forallb] in Hd. rewrite !andb_true_iff in Hd.
  destruct Hd as [H1 [H2 [H3 [H4 _]]]].
  unfold cpb_split.
  destruct (@cpb_split_cons d4 (w :: rest) (decimal_not_letter _ H4))
    as [f4 [fs4 [E4 E4']]].
  destruct (@cpb_split_cons d3 (d4 :: w :: rest) (decimal_not_letter _ H3))
    as [f3 [fs3 [E3 E3']]].
  destruct (@cpb_split_cons d2 (d3 :: d4 :: w :: rest) (decimal_not_letter _ H2))
    as [f2 [fs2 [E2 E2']]].
  destruct (@cpb_split_cons d1 (d2 :: d3 :: d4 :: w :: rest)
              (decimal_not_letter _ H1)) as [f1 [fs1 [E1 E1']]].
  rewrite E1'. rewrite E1 in E2'. inversion E2'; subst.
  rewrite E2 in E3'. inversion E3'; subst.
  rewrite E3 in E4'. inversion E4'; subst.
  cbn [hd firstn]. unfold strip.
  rewrite strip_by_cons by (apply decimal_not_space; exact H1).
  rewrite !rstrip_cons by (apply decimal_not_space; assumption).
  exists (rev (lstrip_by is_space (rev f4))). cbn [app forallb length].
  rewrite H1, H2, H3, H4. auto.
Qed.

Lemma year_of_classified (line : str) :
  year_check line = true ->
  let header_part := strip (hd [] (cpb_split line)) in
  slice_to 4 header_part = firstn 4 line
  /\ exists y, py_int (slice_to 4 header_part) = Ok y /\ (0 <= y <= 9999)%Z.
Proof.
  intros H. destruct (header_of_classified _ H) as [f [E [L D]]].
  cbn zeta. unfold slice_to. rewrite E.
  assert (S4 : firstn 4 (firstn 4 line ++ f) = firstn 4 line).
  { rewrite firstn_app, L, Nat.sub_diag, firstn_O, app_nil_r.
    rewrite firstn_firstn. reflexivity. }
  rewrite S4. split; [reflexivity |].
  set (ano := firstn 4 line) in *.
  assert (Hne : ano <> []) by (intros E0; rewrite E0 in L; discriminate).
  assert (Hlen : (length ano <= int_max_str_digits)%nat).
  { rewrite L. unfold int_max_str_digits.
    apply Nat.leb_le. reflexivity. }
  exists (Z.of_N (digits_value (to_ascii ano))). split.
  - apply py_int_decimal; assumption.
  - destruct (to_ascii_decimal _ D) as [Hd Hl].
    pose proof (digits_value_bound _ Hd) as B. rewrite Hl, L in B.
    change (10 ^ N.of_nat 4)%N with 10000%N in B. lia.
Qed.

(** ** What a line contributes *)

(** The record built from a line, read back field by field. *)
Lemma process_line_emit (raw : str) (r : Record_) :
  process_line raw = Ok (Some r) ->
  let parts := cpb_split (strip raw) in
  let header_part := strip (hd [] parts) in
  let meta_part := strip (last parts []) in
  let tokens := split meta_part in
  is_data_line raw = true
  /\ (3 <= length parts)%nat /\ (2 <= length tokens)%nat
  /\ py_int (slice_to 4 header_part) = Ok (Ano_Exibicao r)
  /\ Titulo r = strip (slice_from 4 header_part)
  /\ Nacionalidade r
     = (if contains (py "Brasileira") meta_part then Brasileira else Estrangeira)
  /\ clean_int_br (PyStr (second_last_item tokens)) = Ok (Publico r)
  /\ clean_currency_br (PyStr (last_item tokens)) = Ok (Renda r).
Proof.
  unfold process_line, is_data_line, slice_header. cbn zeta.
  destruct (year_check (strip raw)); [|discriminate]. cbn [negb].
  destruct (3 <=? length _)%nat eqn:E3; [|discriminate].
  destruct (2 <=? length _)%nat eqn:E2; [|discriminate].
  apply Nat.leb_le in E3. apply Nat.leb_le in E2.
  destruct (py_int _) as [y|e]; [|discriminate].
  destruct (clean_int_br _) as [p|e]; [|discriminate].
  destruct (clean_currency_br _) as [v|e]; [|discriminate].
  cbn [bind]. intros H. inversion H; subst. cbn. auto 10.
Qed.

(** A classified line with a code and two trailing tokens always yields a
    record; any other line yields none. No line raises. *)
Lemma process_line_cases (raw : str) :
  let parts := cpb_split (strip raw) in
  let tokens := split (strip (last parts [])) in
  if is_data_line raw && (3 <=? length parts)%nat && (2 <=? length tokens)%nat
  then exists r, process_line raw = Ok (Some r)
  else process_line raw = Ok None.
Proof.
  unfold process_line, is_data_line, slice_header. cbn zeta.
  destruct (year_check (strip raw)) eqn:Y; [|reflexivity]. cbn [negb andb].
  destruct (3 <=? length _)%nat; [|reflexivity].
  destruct (2 <=? length _)%nat; [|reflexivity]. cbn [andb].
  destruct (year_of_classified _ Y) as [_ [y [-> _]]].
  destruct (clean_int_br_total (PyStr (second_last_item
     (split (strip (last (cpb_split (strip raw)) [])))))) as [p ->].
  destruct (clean_currency_br_total (PyStr (last_item
     (split (strip (last (cpb_split (strip raw)) [])))))) as [v ->].
  cbn [bind]. eauto.
Qed.

Lemma process_line_never_raises (raw : str) :
  exists o, process_line raw = Ok o.
Proof.
  pose proof (process_line_cases raw) as H. cbn zeta in H.
  destruct (_ && _); [destruct H as [r ->] | rewrite H]; eauto.
Qed.

(** ** The loops over lines, pages and files *)

Lemma scan_lines_never_raises (lines : list str) (data : list Record_) :
  snd (scan_lines lines data) = None.
Proof.
  revert data. induction lines as [|l rest IH]; intros data; [reflexivity |].
  cbn [scan_lines]. destruct (process_line_never_raises l) as [[r|] ->];
    apply IH.
Qed.

(** Each loop only appends to [data]. *)
Lemma scan_lines_appends (lines : list str) (data : list Record_) :
  scan_lines lines data
  = (data ++ fst (scan_lines lines []), snd (scan_lines lines [])).
Proof.
  revert data. induction lines as [|l rest IH]; intros data.
  - cbn. rewrite app_nil_r. reflexivity.
  - cbn [scan_lines]. destruct (process_line l) as [[r|]|e].
    + rewrite (IH (data ++ [r])), (IH ([] ++ [r])). cbn [fst snd app].
      rewrite <- app_assoc. reflexivity.
    + apply IH.
    + cbn. rewrite app_nil_r. reflexivity.
Qed.

Lemma scan_page_appends (p : page) (data : list Record_) :
  scan_page p data
  = (data ++ fst (scan_page p []), snd (scan_page p [])).
Proof.
  unfold scan_page. destruct (extract_text p) as [[[|c t]|]|e];
    try (cbn; rewrite app_nil_r; reflexivity).
  apply scan_lines_appends.
Qed.

Lemma scan_pages_appends (ps : list page) (data : list Record_) :
  scan_pages ps data
  = (data ++ fst (scan_pages ps []), snd (scan_pages ps [])).
Proof.
  revert data. induction ps as [|p rest IH]; intros data.
  - cbn. rewrite app_nil_r. reflexivity.
  - cbn [scan_pages]. rewrite (scan_page_appends p data).
    destruct (scan_page p []) as [d1 [e|]]; cbn [fst snd app].
    + reflexivity.
    + rewrite (IH (data ++ d1)), (IH d1). cbn [fst snd].
      rewrite app_assoc. reflexivity.
Qed.

Lemma scan_document_appends (d : document) (data : list Record_) :
  scan_document d data
  = (data ++ fst (scan_document d []), snd (scan_document d [])).
Proof.
  unfold scan_document. destruct (PdfReader d) as [ps|e].
  - apply scan_pages_appends.
  - cbn. rewrite app_nil_r. reflexivity.
Qed.

Lemma scan_documents_spec (ds : list document) (data : list Record_)
    (errors : list error_report) :
  scan_documents ds data errors
  = (data ++ flat_map rows_of ds, errors ++ flat_map errors_of ds).
Proof.
  revert data errors. induction ds as [|d rest IH]; intros data errors.
  - cbn. rewrite !app_nil_r. reflexivity.
  - cbn [scan_documents flat_map]. rewrite (scan_document_appends d data).
    unfold rows_of, errors_of.
    destruct (scan_document d []) as [d1 [e|]]; cbn [fst snd];
      rewrite IH, <- !app_assoc; reflexivity.
Qed.

End ExtractorFacts.

(* ================================================================== *)
(** * Facts about the two cleaners                                     *)
(* ================================================================== *)

Module CleanerFacts.
Import PyStr PyNum Extractor Spec.
Import UnicodeFacts PyStrFacts PyNumFacts ExtractorFacts.

Lemma lstrip_by_none (ws : char -> bool) (u : str) :
  forallb (fun c => negb (ws c)) u = true -> lstrip_by ws u = u.
Proof.
  destruct u as [|x u]; simpl; [reflexivity |]. intros Hu.
  apply andb_true_iff in Hu. destruct Hu as [Hx _].
  apply negb_true_iff in Hx. rewrite Hx. reflexivity.
Qed.

Lemma forallb_rev (A : Type) (p : A -> bool) (l : list A) :
  forallb p l = true -> forallb p (rev l) = true.
Proof.
  rewrite !forallb_forall. intros H x Hx. apply H, in_rev. exact Hx.
Qed.


(** ** Signs *)






(** ** A plain decimal literal *)

Lemma py_float_plain (ip fp : str) :
  forallb is_ascii_digit ip = true -> forallb is_ascii_digit fp = true ->
  ip <> [] ->
  py_float (ip ++ 46%N :: fp)
  = Ok (double_of_decimal false (digits_value (ip ++ fp))
                          (- Z.of_nat (length fp))).
Proof.
  intros Hip Hfp Hne.
  assert (Hall : forall c, In c (ip ++ 46%N :: fp) ->
                           is_ascii_digit c = true \/ c = 46%N).
  { intros c Hc. apply in_app_or in Hc. rewrite forallb_forall in Hip, Hfp.
    destruct Hc as [Hc | [Hc | Hc]]; auto. }
  unfold py_float.
  rewrite to_ascii_ascii.
  2:{ apply forallb_forall. intros c Hc. apply N.ltb_lt.
      destruct (Hall c Hc) as [H | ->]; [|reflexivity].
      apply ascii_digit_range in H. lia. }
  replace (existsb (char_eqb 95%N) (ip ++ 46%N :: fp)) with false.
  2:{ symmetry. apply not_true_is_false. intros H.
      apply existsb_exists in H. destruct H as [c [Hc Hx]].
      apply char_eqb_eq in Hx. subst c.
      destruct (Hall _ Hc) as [H | H]; [vm_compute in H|]; discriminate. }
  cbn [andb]. unfold remove_underscores. rewrite forallb_filter_id.
  2:{ apply forallb_forall. intros c Hc. apply negb_true_iff, char_eqb_neq.
      destruct (Hall c Hc) as [H | ->]; [|discriminate].
      apply ascii_digit_range in H. lia. }
  rewrite strip_by_none.
  2:{ apply forallb_forall. intros c Hc. apply negb_true_iff.
      destruct (Hall c Hc) as [H | ->]; [|reflexivity].
      apply ascii_digit_not_space. exact H. }
  destruct ip as [|c ip']; [congruence |].
  assert (Hc : is_ascii_digit c = true).
  { cbn [forallb] in Hip. apply andb_true_iff in Hip. tauto. }
  assert (Hs : take_sign ((c :: ip') ++ 46%N :: fp)
               = (false, (c :: ip') ++ 46%N :: fp)).
  { cbn [app take_sign]. apply ascii_digit_range in Hc.
    replace (char_eqb c 45%N) with false by (symmetry; apply char_eqb_neq; lia).
    replace (char_eqb c 43%N) with false by (symmetry; apply char_eqb_neq; lia).
    reflexivity. }
  rewrite Hs. unfold parse_decimal, span_digits.
  destruct (digits_take_digits _ Hip (46%N :: fp) eq_refl) as [-> ->].
  cbn [char_eqb N.eqb Pos.eqb].
  destruct (digits_take_digits _ Hfp [] eq_refl) as [E1 E2].
  rewrite app_nil_r in E1, E2. rewrite E1, E2.
  cbn [app nonempty parse_exponent]. f_equal.
Qed.

End CleanerFacts.

Module AmountFacts.
Import PyStr PyNum Extractor Spec.
Import UnicodeFacts PyStrFacts PyNumFacts ExtractorFacts CleanerFacts.

Lemma space_not_R (c : char) : is_space c = true -> c <> 82%N.
Proof. intros H ->. vm_compute in H. discriminate. Qed.

Lemma digit_not_space (c : char) :
  is_ascii_digit c = true -> is_space c = false.
Proof. intros H. apply decimal_not_space, ascii_digit_decimal, H. Qed.

Section Amount.
Variables ws1 marker ws2 ip fp ws3 : str.
Hypothesis Hws1 : forallb is_space ws1 = true.
Hypothesis Hws2 : forallb is_space ws2 = true.
Hypothesis Hws3 : forallb is_space ws3 = true.
Hypothesis Hmarker : marker = [] \/ marker = py "R$".
Hypothesis Hip : br_integer_part ip = true.
Hypothesis Hfp : forallb is_ascii_digit fp = true.

Let body : str := ip ++ 44%N :: fp.

Lemma ip_chars (c : char) :
  In c ip -> is_ascii_digit c = true \/ c = 46%N.
Proof.
  unfold br_integer_part in Hip. apply andb_true_iff in Hip.
  destruct Hip as [H _]. rewrite forallb_forall in H. intros Hc.
  apply H in Hc. apply orb_true_iff in Hc.
  destruct Hc as [Hc | Hc]; [left; exact Hc | right; apply char_eqb_eq, Hc].
Qed.

Lemma body_chars (c : char) :
  In c body -> is_ascii_digit c = true \/ c = 46%N \/ c = 44%N.
Proof.
  unfold body. intros Hc. apply in_app_or in Hc.
  destruct Hc as [Hc | [Hc | Hc]].
  - destruct (ip_chars _ Hc); auto.
  - auto.
  - rewrite forallb_forall in Hfp. auto.
Qed.

Lemma body_no_space : forallb (fun c => negb (is_space c)) body = true.
Proof.
  apply forallb_forall. intros c Hc. apply negb_true_iff.
  destruct (body_chars _ Hc) as [H | [-> | ->]];
    [apply digit_not_space, H | reflexivity | reflexivity].
Qed.

Lemma no_R_around : ~ In 82%N ws1 /\ ~ In 82%N (ws2 ++ body ++ ws3).
Proof.
  assert (W : forall ws, forallb is_space ws = true -> ~ In 82%N ws).
  { intros ws H Hin. rewrite forallb_forall in H.
    exact (@space_not_R 82%N (H _ Hin) eq_refl). }
  split; [apply W, Hws1 |]. intros H. apply in_app_or in H.
  destruct H as [H | H]; [exact (W _ Hws2 H) |].
  apply in_app_or in H. destruct H as [H | H]; [|exact (W _ Hws3 H)].
  destruct (body_chars _ H) as [D | [D | D]]; [vm_compute in D | |];
    discriminate.
Qed.

Lemma marker_removed :
  replace (py "R$") [] (ws1 ++ marker ++ ws2 ++ body ++ ws3)
  = (ws1 ++ ws2) ++ body ++ ws3.
Proof.
  destruct no_R_around as [N1 N2]. change (py "R$") with [82%N; 36%N].
  rewrite replace_app_absent by exact N1. rewrite <- app_assoc. f_equal.
  destruct Hmarker as [-> | ->].
  - cbn [app]. apply replace_absent, N2.
  - change (py "R$") with [82%N; 36%N]. rewrite replace_occurrence.
    cbn [app]. apply replace_absent, N2.
Qed.

Lemma body_stripped : strip ((ws1 ++ ws2) ++ body ++ ws3) = body.
Proof.
  unfold strip. apply strip_by_sandwich.
  - rewrite forallb_app, Hws1, Hws2. reflexivity.
  - exact Hws3.
  - apply lstrip_by_none, body_no_space.
  - apply lstrip_by_none, forallb_rev, body_no_space.
Qed.

Lemma body_without_points :
  replace (py ".") [] body = filter is_ascii_digit ip ++ 44%N :: fp.
Proof.
  change (py ".") with [46%N]. rewrite replace_char_remove. unfold body.
  rewrite filter_app. f_equal.
  - apply filter_ext_in. intros c Hc.
    destruct (ip_chars _ Hc) as [H | ->]; [|reflexivity].
    rewrite H. apply negb_true_iff, char_eqb_neq.
    apply ascii_digit_range in H. lia.
  - cbn [filter char_eqb N.eqb Pos.eqb negb]. f_equal.
    apply forallb_filter_id. apply forallb_forall. intros c Hc.
    rewrite forallb_forall in Hfp. apply Hfp in Hc.
    apply negb_true_iff, char_eqb_neq. apply ascii_digit_range in Hc. lia.
Qed.

Lemma digits_keep_comma (ds : str) :
  forallb is_ascii_digit ds = true ->
  map (fun x : char => if char_eqb x 44%N then 46%N : char else x) ds = ds.
Proof.
  intros H. rewrite <- (map_id ds) at 2. apply map_ext_in. intros c Hc.
  rewrite forallb_forall in H. apply H in Hc. apply ascii_digit_range in Hc.
  replace (char_eqb c 44%N) with false; [reflexivity |].
  symmetry. apply char_eqb_neq. lia.
Qed.

Lemma filter_digits_are_digits (s : str) :
  forallb is_ascii_digit (filter is_ascii_digit s) = true.
Proof.
  apply forallb_forall. intros c Hc. apply filter_In in Hc. tauto.
Qed.

Lemma currency_text_amount :
  currency_text (ws1 ++ marker ++ ws2 ++ ip ++ py "," ++ fp ++ ws3)
  = filter is_ascii_digit ip ++ 46%N :: fp.
Proof.
  unfold currency_text. change (py ",") with [44%N]. cbn [app].
  assert (E : ip ++ (44%N : char) :: fp ++ ws3 = body ++ ws3)
    by (unfold body; rewrite <- app_assoc; reflexivity).
  rewrite E.
  rewrite marker_removed, body_stripped, body_without_points.
  change (py ".") with [46%N]. rewrite replace_char_map, map_app.
  rewrite (@digits_keep_comma _ (filter_digits_are_digits ip)). cbn [map].
  rewrite (@digits_keep_comma _ Hfp). reflexivity.
Qed.

Lemma clean_currency_br_amount :
  clean_currency_br (PyStr (ws1 ++ marker ++ ws2 ++ ip ++ py "," ++ fp ++ ws3))
  = Ok (br_amount_value ip fp).
Proof.
  cbn [clean_currency_br]. rewrite currency_text_amount.
  rewrite py_float_plain.
  - reflexivity.
  - apply filter_digits_are_digits.
  - exact Hfp.
  - unfold br_integer_part in Hip. apply andb_true_iff in Hip.
    destruct Hip as [_ H]. apply existsb_exists in H.
    destruct H as [c [Hc Hd]]. intros E.
    assert (Hin : In c (filter is_ascii_digit ip)) by (apply filter_In; auto).
    rewrite E in Hin. exact Hin.
Qed.

End Amount.

End AmountFacts.

(* ================================================================== *)
(** * Facts about the aggregation                                      *)
(* ================================================================== *)

Module AggregatorFacts.
Import PyStr PyNum Extractor Aggregator UnicodeFacts.

Lemma nationality_eqb_eq (a b : nationality) :
  nationality_eqb a b = true <-> a = b.
Proof. destruct a, b; simpl; split; congruence. Qed.

Lemma key_eqb_eq (a b : key) : key_eqb a b = true <-> a = b.
Proof.
  destruct a as [t1 n1], b as [t2 n2]. unfold key_eqb. cbn [fst snd].
  rewrite andb_true_iff, str_eqb_eq, nationality_eqb_eq.
  split; [intros [-> ->]; reflexivity | intros H; inversion H; auto].
Qed.

Lemma key_eqb_refl (a : key) : key_eqb a a = true.
Proof. apply key_eqb_eq. reflexivity. Qed.

(** ** Sums and minima do not depend on the order of the rows *)

Lemma sum_int_from (l : list Z) (a : Z) :
  fold_left Z.add l a = (a + fold_left Z.add l 0)%Z.
Proof.
  revert a. induction l as [|x l IH]; intros a; cbn [fold_left]; [lia |].
  rewrite (IH (a + x)%Z), (IH (0 + x)%Z). lia.
Qed.

Lemma sum_int_cons (x : Z) (l : list Z) :
  sum_int (x :: l) = (x + sum_int l)%Z.
Proof. unfold sum_int. cbn [fold_left]. rewrite sum_int_from. lia. Qed.

Lemma sum_int_perm (l l' : list Z) :
  Permutation l l' -> sum_int l = sum_int l'.
Proof.
  induction 1 as [|x l l' _ IH|x y l|l l' l'' _ IH1 _ IH2].
  - reflexivity.
  - rewrite !sum_int_cons, IH. reflexivity.
  - rewrite !sum_int_cons. lia.
  - congruence.
Qed.

Lemma fold_min_perm (l l' : list Z) :
  Permutation l l' -> forall a, fold_left Z.min l a = fold_left Z.min l' a.
Proof.
  induction 1 as [|x l l' _ IH|x y l|l l' l'' _ IH1 _ IH2]; intros a.
  - reflexivity.
  - cbn [fold_left]. apply IH.
  - cbn [fold_left]. f_equal. lia.
  - rewrite IH1. apply IH2.
Qed.

Lemma min_of_perm (l l' : list Z) : Permutation l l' -> min_of l = min_of l'.
Proof.
  induction 1 as [|x l l' HP _|x y l|l l' l'' _ IH1 _ IH2].
  - reflexivity.
  - cbn [min_of]. unfold min_int. apply fold_min_perm, HP.
  - cbn [min_of]. unfold min_int. cbn [fold_left]. f_equal. lia.
  - congruence.
Qed.

Lemma filter_perm (A : Type) (p : A -> bool) (l l' : list A) :
  Permutation l l' -> Permutation (filter p l) (filter p l').
Proof.
  induction 1 as [|x l l' _ IH|x y l|l l' l'' _ IH1 _ IH2]; cbn [filter].
  - constructor.
  - destruct (p x); [constructor |]; exact IH.
  - destruct (p x), (p y); try apply Permutation_refl. constructor.
  - eapply Permutation_trans; eassumption.
Qed.

Lemma existsb_perm (A : Type) (p : A -> bool) (l l' : list A) :
  Permutation l l' -> existsb p l = existsb p l'.
Proof.
  intros HP. apply eq_true_iff_eq. rewrite !existsb_exists.
  split; intros [x [Hx Hp]]; exists x; split; try exact Hp.
  - exact (Permutation_in _ HP Hx).
  - exact (Permutation_in _ (Permutation_sym HP) Hx).
Qed.

Section GroupByFacts.
Variable upper : str -> str.

Lemma insert_key_In (k k0 : key) (ks : list key) :
  In k (insert_key k0 ks) <-> k = k0 \/ In k ks.
Proof.
  induction ks as [|h t IH]; cbn [insert_key In].
  - intuition congruence.
  - destruct (key_eqb k0 h) eqn:E.
    + apply key_eqb_eq in E. subst. cbn [In]. intuition congruence.
    + destruct (key_ltb k0 h); cbn [In]; rewrite ?IH; intuition congruence.
Qed.

Lemma group_keys_In (k : key) (df : list Record_) :
  In k (group_keys upper df) <-> exists r, In r df /\ key_of upper r = k.
Proof.
  induction df as [|r df IH]; cbn [group_keys fold_right In].
  - split; [tauto | intros [r [[] _]]].
  - fold (group_keys upper df). rewrite insert_key_In, IH. split.
    + intros [-> | [r' [H1 H2]]]; [exists r | exists r']; auto.
    + intros [r' [[<- | H1] H2]]; [left; auto | right; exists r'; auto].
Qed.

Lemma find_key (k : key) (ks : list key) :
  find (key_eqb k) ks = if existsb (key_eqb k) ks then Some k else None.
Proof.
  induction ks as [|h t IH]; cbn [find existsb]; [reflexivity |].
  destruct (key_eqb k h) eqn:E; [|exact IH].
  apply key_eqb_eq in E. subst. reflexivity.
Qed.

Lemma find_agg (k : key) (rows : key -> list Record_) (ks : list key) :
  find (fun g => key_eqb k (g_Titulo_Norm g, g_Nacionalidade g))
       (map (fun k' => agg k' (rows k')) ks)
  = option_map (fun k' => agg k' (rows k')) (find (key_eqb k) ks).
Proof.
  induction ks as [|h t IH]; cbn [find map]; [reflexivity |].
  change (key_eqb k (g_Titulo_Norm (agg h (rows h)),
                     g_Nacionalidade (agg h (rows h))))
    with (key_eqb k h).
  destruct (key_eqb k h); [reflexivity | exact IH].
Qed.

(** The row of a key is the reduction of the key's rows, and it exists
    exactly when some row carries the key. *)
Lemma grouped_row_spec (k : key) (df : list Record_) :
  grouped_row upper k df
  = if existsb (fun r => key_eqb k (key_of upper r)) df
    then Some (agg k (group_rows upper k df))
    else None.
Proof.
  unfold grouped_row, df_grouped.
  rewrite (find_agg k (fun k' => group_rows upper k' df)), find_key.
  replace (existsb (key_eqb k) (group_keys upper df))
    with (existsb (fun r => key_eqb k (key_of upper r)) df).
  - destruct (existsb _ df); reflexivity.
  - apply eq_true_iff_eq. rewrite !existsb_exists. split.
    + intros [r [Hr Hk]]. exists k. split; [|apply key_eqb_refl].
      apply group_keys_In. exists r. apply key_eqb_eq in Hk. auto.
    + intros [k' [Hk' E]]. apply key_eqb_eq in E. subst k'.
      apply group_keys_In in Hk'. destruct Hk' as [r [Hr <-]].
      exists r. split; [exact Hr | apply key_eqb_refl].
Qed.

(** A table whose rows all carry one key has that key's row alone. *)
Lemma single_group (k : key) (df : list Record_) :
  df <> [] -> (forall r, In r df -> key_of upper r = k) ->
  grouped_row upper k df = Some (agg k df).
Proof.
  intros Hne Hk. rewrite grouped_row_spec.
  assert (F : forallb (fun r => key_eqb k (key_of upper r)) df = true).
  { apply forallb_forall. intros r Hr. rewrite (Hk r Hr). apply key_eqb_refl. }
  unfold group_rows. rewrite (forallb_filter_id _ _ F).
  destruct df as [|r df']; [congruence |].
  cbn [existsb forallb] in *. apply andb_true_iff in F. destruct F as [-> _].
  reflexivity.
Qed.

Lemma agg_year (k : key) (rows : list Record_) :
  g_Ano_Exibicao (agg k rows) = min_of (map Ano_Exibicao rows).
Proof. reflexivity. Qed.

End GroupByFacts.

End AggregatorFacts.

(* ================================================================== *)
(** * The properties of the specification                              *)
(* ================================================================== *)

Import PyStr PyNum Extractor Aggregator Spec Samples.
Import UnicodeFacts PyStrFacts PyNumFacts ExtractorFacts CleanerFacts.
Import AmountFacts AggregatorFacts.

(** A few values of the decimal-to-binary64 conversion, for reference:
    0.1, the largest finite number, the overflow threshold and the
    smallest subnormal. *)
Example double_of_decimal_values :
  double_of_decimal false 1 (-1) = S754_finite false 7205759403792794 (-56)
  /\ double_of_decimal false 17976931348623157 292
     = S754_finite false 9007199254740991 971
  /\ double_of_decimal false 1 400 = S754_infinity false
  /\ double_of_decimal true 5 (-324) = S754_finite true 1 (-1074)
  /\ float_of_int 50000 = double_of_decimal false 5000000 (-2).
Proof. vm_compute. repeat split; reflexivity. Qed.

(** Claim C1. The line of the end-to-end example, processed by the loop
    body and by the whole of [parse_ancine_pdf] (one file, one page), gives
    exactly one row: year 2009, title "Filme Exemplo", Brazilian, audience
    10000, revenue 50000.00; and no error is reported. *)
Theorem example_line_yields_record :
  process_line example_line
  = Ok (Some (mkRecord 2009 (py "Filme Exemplo") Brasileira 10000
                       (float_of_int 50000)))
  /\ parse_ancine_pdf [valid]
     = ([mkRecord 2009 (py "Filme Exemplo") Brasileira 10000
                  (float_of_int 50000)], []).
Proof. split; vm_compute; reflexivity. Qed.


(** Claim C5. For an amount written with thousands separators and a decimal
    comma, with or without the marker "R$" and whitespace around it,
    [clean_currency_br] returns the binary64 number nearest to the decimal
    number written (["1.234,56"] gives 1234.56); for an argument that is not
    a string, and for a string whose cleaned text [float] refuses, it
    returns 0.0; and it never raises. *)
Theorem currency_normalizer_spec :
  (forall ws1 marker ws2 ip fp ws3 : str,
      forallb is_space ws1 = true ->
      forallb is_space ws2 = true ->
      forallb is_space ws3 = true ->
      marker = [] \/ marker = py "R$" ->
      br_integer_part ip = true ->
      forallb is_ascii_digit fp = true ->
      clean_currency_br
        (PyStr (ws1 ++ marker ++ ws2 ++ ip ++ py "," ++ fp ++ ws3))
      = Ok (br_amount_value ip fp))
  /\ clean_currency_br (PyStr (py "1.234,56"))
     = Ok (double_of_decimal false 123456 (-2))
  /\ double_of_decimal false 123456 (-2)
     = S754_finite false 5429652300748554 (-42)
  /\ (forall x : pyobj, (forall s, x <> PyStr s) ->
                        clean_currency_br x = Ok fzero)
  /\ (forall (s : str) (e : exn),
         py_float (currency_text s) = Raise e ->
         clean_currency_br (PyStr s) = Ok fzero)
  /\ clean_currency_br (PyStr []) = Ok fzero
  /\ (forall x : pyobj, exists v, clean_currency_br x = Ok v).
Proof.
  split; [|split; [|split; [|split; [|split; [|split]]]]].
  - intros. apply clean_currency_br_amount; assumption.
  - vm_compute. reflexivity.
  - vm_compute. reflexivity.
  - intros [s| | |] H; try reflexivity. exfalso. exact (H s eq_refl).
  - intros s e H. cbn [clean_currency_br]. rewrite H.
    rewrite (py_float_raises _ H). reflexivity.
  - vm_compute. reflexivity.
  - apply clean_currency_br_total.
Qed.

Lemma currency_normalizer_spec_witness :
  clean_currency_br
    (PyStr (py " " ++ py "R$" ++ py " " ++ py "1.234" ++ py "," ++ py "56"
            ++ py " "))
  = Ok (br_amount_value (py "1.234") (py "56")).
Proof.
  apply (proj1 currency_normalizer_spec); try reflexivity.
  right. reflexivity.
Defined.

(** Claim C6, counterexample. A line whose year is written with four
    Arabic-Indic digits passes the filter of the program, although it does
    not begin with four ASCII digits. *)
Lemma arabic_line_is_classified :
  is_data_line arabic_line = true
  /\ spec_is_data_line arabic_line = false
  /\ is_data_line arabic_line <> spec_is_data_line arabic_line.
Proof. vm_compute. repeat split; discriminate. Qed.

Lemma leading_decimals_of_year (d1 d2 d3 d4 w : char) (rest : str) :
  forallb is_decimal [d1; d2; d3; d4] = true -> is_space w = true ->
  leading is_decimal (d1 :: d2 :: d3 :: d4 :: w :: rest) = [d1; d2; d3; d4].
Proof.
  cbn [forallb]. rewrite !andb_true_iff. intros [H1 [H2 [H3 [H4 _]]]] Hw.
  cbn [leading]. rewrite H1, H2, H3, H4, (space_not_decimal _ Hw).
  reflexivity.
Qed.

(** Claim C6, as amended. A line passes the filter exactly when, once
    stripped, it begins with exactly four decimal digits (any character of
    the class [\d], ASCII or not) followed by a whitespace character; a
    stripped line that starts with five or more digits, or with fewer than
    four, never passes. *)
Theorem data_line_iff_four_decimals :
  forall raw : str,
    (is_data_line raw = true <->
     length (leading is_decimal (strip raw)) = 4%nat
     /\ exists w rest, skipn 4 (strip raw) = w :: rest /\ is_space w = true)
    /\ ((4 < length (leading is_decimal (strip raw)))%nat
        \/ (length (leading is_decimal (strip raw)) < 4)%nat
        -> is_data_line raw = false).
Proof.
  intros raw. unfold is_data_line.
  assert (Hiff : year_check (strip raw) = true <->
     length (leading is_decimal (strip raw)) = 4%nat
     /\ exists w rest, skipn 4 (strip raw) = w :: rest /\ is_space w = true).
  { split.
    - intros H. apply year_check_shape in H.
      destruct H as [d1 [d2 [d3 [d4 [w [rest [-> [Hd Hw]]]]]]]].
      rewrite leading_decimals_of_year by assumption. split; [reflexivity |].
      exists w, rest. auto.
    - intros [L [w [rest [E Hw]]]].
      destruct (strip raw) as [|d1 [|d2 [|d3 [|d4 tail]]]];
        try discriminate E.
      cbn [skipn] in E. subst tail. cbn [leading] in L.
      destruct (is_decimal d1) eqn:H1; [|discriminate L].
      destruct (is_decimal d2) eqn:H2; [|discriminate L].
      destruct (is_decimal d3) eqn:H3; [|discriminate L].
      destruct (is_decimal d4) eqn:H4; [|discriminate L].
      cbn [year_check]. rewrite H1, H2, H3, H4, Hw. reflexivity. }
  split; [exact Hiff |].
  intros H. destruct (year_check (strip raw)); [|reflexivity].
  destruct (proj1 Hiff eq_refl) as [L _]. lia.
Qed.

Lemma data_line_iff_four_decimals_witness :
  is_data_line (py "20091 Filme") = false.
Proof.
  apply (proj2 (data_line_iff_four_decimals (py "20091 Filme"))).
  left. vm_compute. lia.
Defined.



(** The pattern asks for thirteen digits after the letter and does not
    look at what follows them: a letter followed by fourteen digits holds a
    match, and the fourteenth digit opens the next part. *)
Example longer_digit_run_matches :
  cpb_split (py "2009 Filme B09010245000001 x 1 2")
  = [py "2009 Filme "; py "B0901024500000"; py "1 x 1 2"].
Proof. vm_compute. reflexivity. Qed.

(** Claim C10. On a line that passes the filter, the code pattern cannot
    match within the first four characters, the first four characters of
    the stripped header are the four digits that open the line, and [int]
    succeeds on them; the slices of the header always succeed. Hence no
    line makes the loop body raise, and the scan of the lines of a page is
    never interrupted. *)
Theorem year_conversion_never_fails :
  (forall raw : str,
      is_data_line raw = true ->
      let header_part := strip (hd [] (cpb_split (strip raw))) in
      (forall i, (i < 4)%nat -> cpb_at (skipn i (strip raw)) = false)
      /\ slice_to 4 header_part = firstn 4 (strip raw)
      /\ forallb is_decimal (slice_to 4 header_part) = true
      /\ (exists y, py_int (slice_to 4 header_part) = Ok y
                    /\ (0 <= y <= 9999)%Z)
      /\ exists p, slice_header header_part = Ok p)
  /\ (forall raw : str, exists o, process_line raw = Ok o)
  /\ (forall lines data, snd (scan_lines lines data) = None).
Proof.
  split; [|split].
  - intros raw H. unfold is_data_line in H. cbn zeta.
    destruct (year_of_classified _ H) as [S4 Hy]. cbn zeta in S4, Hy.
    destruct (header_of_classified _ H) as [f [_ [_ D]]].
    split; [|split; [exact S4 | split; [rewrite S4; exact D |
                                        split; [exact Hy |]]]].
    + apply year_check_shape in H.
      destruct H as [d1 [d2 [d3 [d4 [w [rest [-> [Hd _]]]]]]]].
      cbn [forallb] in Hd. rewrite !andb_true_iff in Hd.
      destruct Hd as [H1 [H2 [H3 [H4 _]]]].
      intros i Hi.
      destruct i as [|[|[|[|i]]]]; [| | | |lia]; cbn [skipn cpb_at];
        rewrite decimal_not_letter by assumption; reflexivity.
    + unfold slice_header. eauto.
  - apply process_line_never_raises.
  - apply scan_lines_never_raises.
Qed.

Lemma year_conversion_never_fails_witness :
  let header_part := strip (hd [] (cpb_split (strip example_line))) in
  (forall i, (i < 4)%nat -> cpb_at (skipn i (strip example_line)) = false)
  /\ slice_to 4 header_part = firstn 4 (strip example_line)
  /\ forallb is_decimal (slice_to 4 header_part) = true
  /\ (exists y, py_int (slice_to 4 header_part) = Ok y /\ (0 <= y <= 9999)%Z)
  /\ exists p, slice_header header_part = Ok p.
Proof.
  apply (proj1 year_conversion_never_fails example_line).
  vm_compute. reflexivity.
Defined.

(** Claim C3, counterexample. The header of this classified line is the
    year alone, and yet the line is not discarded: it gives a row whose
    title is the empty string. *)
Lemma untitled_line_yields_record :
  strip (hd [] (cpb_split (strip untitled_line))) = py "2009"
  /\ exists r, process_line untitled_line = Ok (Some r) /\ Titulo r = [].
Proof.
  split; [vm_compute; reflexivity |].
  exists (mkRecord 2009 [] Brasileira 10000 (float_of_int 50000)).
  split; vm_compute; reflexivity.
Qed.

(** Claim C3, as amended. The title of every row is stripped (it has no
    whitespace at either end) but may be empty: a classified line with a
    code, whose header is the year alone and whose trailer has at least two
    tokens, is not discarded and gives a row with the empty title. *)
Theorem record_title_is_stripped_possibly_empty :
  (forall (raw : str) (r : Record_),
      process_line raw = Ok (Some r) -> strip (Titulo r) = Titulo r)
  /\ (forall raw : str,
         is_data_line raw = true ->
         (3 <= length (cpb_split (strip raw)))%nat ->
         length (strip (hd [] (cpb_split (strip raw)))) = 4%nat ->
         (2 <= length (split (strip (last (cpb_split (strip raw)) []))))%nat ->
         exists r, process_line raw = Ok (Some r) /\ Titulo r = []).
Proof.
  split.
  - intros raw r H. apply process_line_emit in H. cbn zeta in H.
    destruct H as [_ [_ [_ [_ [-> _]]]]]. apply strip_by_idem.
  - intros raw Hc H3 H4 H2. pose proof (process_line_cases raw) as C.
    cbn zeta in C. rewrite Hc in C.
    rewrite (proj2 (Nat.leb_le _ _) H3), (proj2 (Nat.leb_le _ _) H2) in C.
    cbn [andb] in C. destruct C as [r Hr]. exists r. split; [exact Hr |].
    apply process_line_emit in Hr. cbn zeta in Hr.
    destruct Hr as [_ [_ [_ [_ [-> _]]]]].
    unfold slice_from. rewrite skipn_all2 by lia. reflexivity.
Qed.

Lemma record_title_is_stripped_possibly_empty_witness :
  exists r, process_line untitled_line = Ok (Some r) /\ Titulo r = [].
Proof.
  apply (proj2 record_title_is_stripped_possibly_empty untitled_line).
  - vm_compute. reflexivity.
  - apply Nat.leb_le. vm_compute. reflexivity.
  - vm_compute. reflexivity.
  - apply Nat.leb_le. vm_compute. reflexivity.
Defined.




(** Claim C8, counterexample. The second page of this file cannot be read:
    one error is reported for the file, but the row of its first page is in
    the table, which therefore is not the union of the rows of the files
    scanned without an error (there is none). *)
Lemma half_read_rows_survive :
  parse_ancine_pdf [half_read]
  = ([example_record],
     [(py "boletim.pdf", ReaderError (py "stream error"))])
  /\ spec_raw_table [half_read] = []
  /\ fst (parse_ancine_pdf [half_read]) <> spec_raw_table [half_read].
Proof. vm_compute. repeat split; discriminate. Qed.

Lemma errors_of_count (d : document) :
  length (errors_of d) = if scanned_ok d then 0%nat else 1%nat.
Proof.
  unfold errors_of, scanned_ok. destruct (snd (scan_document d []));
    reflexivity.
Qed.

Lemma rows_of_successful (ds : list document) :
  (forall d, In d ds -> scanned_ok d = false -> rows_of d = []) ->
  flat_map rows_of ds = spec_raw_table ds.
Proof.
  unfold spec_raw_table. fold rows_of.
  induction ds as [|d ds IH]; intros H; [reflexivity |].
  cbn [flat_map filter]. rewrite IH by (intros d' Hd'; apply H; right; exact Hd').
  destruct (scanned_ok d) eqn:E; [reflexivity |].
  rewrite (H d (or_introl eq_refl) E). reflexivity.
Qed.

(** Claim C8, as amended. Failures are isolated file by file: the table is
    the concatenation, in order, of what each file contributes when scanned
    on its own, which for a file that fails is the rows recognised before
    the failure; exactly one error is reported for each file that fails and
    none for the others. When the files that fail contribute no row (as a
    file that cannot be opened), the table is the union of the rows of the
    files scanned without an error. *)
Theorem document_failures_are_isolated :
  forall ds : list document,
    fst (parse_ancine_pdf ds) = flat_map rows_of ds
    /\ snd (parse_ancine_pdf ds) = flat_map errors_of ds
    /\ (forall d, length (errors_of d) = if scanned_ok d then 0%nat else 1%nat)
    /\ (forall d e, PdfReader d = Raise e ->
                    rows_of d = [] /\ errors_of d = [(name d, e)])
    /\ ((forall d, In d ds -> scanned_ok d = false -> rows_of d = []) ->
        fst (parse_ancine_pdf ds) = spec_raw_table ds).
Proof.
  intros ds. unfold parse_ancine_pdf. rewrite scan_documents_spec.
  cbn [fst snd app]. split; [reflexivity | split; [reflexivity |]].
  split; [apply errors_of_count |]. split.
  - intros d e H. unfold rows_of, errors_of, scan_document. rewrite H.
    split; reflexivity.
  - apply rows_of_successful.
Qed.

Lemma document_failures_are_isolated_witness :
  fst (parse_ancine_pdf [corrupt; valid]) = spec_raw_table [corrupt; valid].
Proof.
  apply (proj2 (proj2 (proj2 (proj2
           (document_failures_are_isolated [corrupt; valid]))))).
  intros d [<- | [<- | []]] H.
  - reflexivity.
  - vm_compute in H. discriminate H.
Defined.

(** The batch of the specification: one corrupt file and one valid file
    give the valid file's row and one error, reported for the corrupt
    file. *)
Example corrupt_and_valid_batch :
  parse_ancine_pdf [corrupt; valid]
  = ([example_record],
     [(py "corrupt.pdf", ReaderError (py "EOF marker not found"))]).
Proof. vm_compute. reflexivity. Qed.

(** Claim C2, counterexample. Three rows of one film with revenues 0.10,
    0.70 and 0.20: read in this order their revenues sum to 1.0, read in
    the reverse order to 0.9999999999999999. Whatever [str.upper] does,
    the two tables, each a permutation of the other, give the film
    different totals. *)
Lemma revenue_total_depends_on_order :
  Permutation rows_abc rows_cba
  /\ sum_float (map Renda rows_abc) = S754_finite false 4503599627370496 (-52)
  /\ sum_float (map Renda rows_cba) = S754_finite false 9007199254740991 (-53)
  /\ ~ (exists upper : str -> str,
          option_map g_Renda
            (grouped_row upper (key_of upper (row 2009 10)) rows_abc)
          = option_map g_Renda
              (grouped_row upper (key_of upper (row 2009 10)) rows_cba)).
Proof.
  split; [|split; [|split]].
  - unfold rows_abc, rows_cba.
    apply (Permutation_rev [row 2009 10; row 2010 70; row 2011 20]).
  - vm_compute. reflexivity.
  - vm_compute. reflexivity.
  - intros [upper H].
    assert (A : sum_float (map Renda rows_abc)
                <> sum_float (map Renda rows_cba))
      by (vm_compute; discriminate).
    apply A. clear A.
    rewrite !single_group in H;
      [| discriminate | intros r [<- | [<- | [<- | []]]]; reflexivity
       | discriminate | intros r [<- | [<- | [<- | []]]]; reflexivity].
    cbn [option_map agg g_Renda] in H.
    exact (f_equal (fun o => match o with Some f => f | None => fzero end) H).
Qed.

(** Claim C2, as amended. For every permutation of the table and every
    key, the grouped table has a row for the key in both or in neither,
    with the same total audience and the same first year. (The total
    revenue is a floating-point sum taken in table order.) *)
Theorem aggregation_order_independent :
  forall (upper : str -> str) (df df' : list Record_),
    Permutation df df' ->
    forall k : key,
      option_map (fun g => (g_Publico g, g_Ano_Exibicao g))
                 (grouped_row upper k df)
      = option_map (fun g => (g_Publico g, g_Ano_Exibicao g))
                   (grouped_row upper k df').
Proof.
  intros upper df df' HP k. rewrite !grouped_row_spec.
  rewrite (existsb_perm _ HP).
  destruct (existsb _ df'); [|reflexivity].
  cbn [option_map agg g_Publico g_Ano_Exibicao]. f_equal.
  pose proof (filter_perm (fun r => key_eqb k (key_of upper r)) HP) as HF.
  fold (group_rows upper k df) in HF. fold (group_rows upper k df') in HF.
  f_equal.
  - apply sum_int_perm, Permutation_map, HF.
  - apply min_of_perm, Permutation_map, HF.
Qed.

Lemma aggregation_order_independent_witness :
  option_map (fun g => (g_Publico g, g_Ano_Exibicao g))
             (grouped_row (fun s => s) (py "Filme Exemplo", Brasileira) rows_abc)
  = option_map (fun g => (g_Publico g, g_Ano_Exibicao g))
               (grouped_row (fun s => s) (py "Filme Exemplo", Brasileira) rows_cba).
Proof.
  apply (aggregation_order_independent (fun s => s)).
  unfold rows_abc, rows_cba.
  apply (Permutation_rev [row 2009 10; row 2010 70; row 2011 20]).
Defined.

(* ================================================================== *)
(** * Further properties of the extractor                              *)
(* ================================================================== *)

Lemma integer_part_digits (ip : str) :
  br_integer_part ip = true ->
  filter (fun x => negb (char_eqb x 46%N)) ip = filter is_ascii_digit ip
  /\ filter is_ascii_digit ip <> [].
Proof.
  unfold br_integer_part. intros H. apply andb_true_iff in H.
  destruct H as [Hall Hex]. split.
  - apply filter_ext_in. intros c Hc. rewrite forallb_forall in Hall.
    apply Hall in Hc. apply orb_true_iff in Hc. destruct Hc as [Hc | Hc].
    + rewrite Hc. apply negb_true_iff, char_eqb_neq.
      apply ascii_digit_range in Hc. lia.
    + rewrite Hc. apply char_eqb_eq in Hc. subst c. reflexivity.
  - apply existsb_exists in Hex. destruct Hex as [c [Hc Hd]]. intros E.
    assert (Hin : In c (filter is_ascii_digit ip)) by (apply filter_In; auto).
    rewrite E in Hin. exact Hin.
Qed.

Lemma spaces_hold_no_point (ws : str) :
  forallb is_space ws = true ->
  filter (fun x => negb (char_eqb x 46%N)) ws = ws.
Proof.
  intros H. apply forallb_filter_id. rewrite forallb_forall in *.
  intros c Hc. apply H in Hc. apply negb_true_iff, char_eqb_neq.
  intros ->. vm_compute in Hc. discriminate.
Qed.

(** Property X1. [clean_int_br] on an integer written with thousands separators, with
    or without whitespace around it, returns the integer its digits spell
    (["12.345"] gives 12345), as long as it has no more digits than [int]
    accepts. *)
Theorem clean_int_br_thousands :
  forall ws1 ip ws2 : str,
    forallb is_space ws1 = true ->
    forallb is_space ws2 = true ->
    br_integer_part ip = true ->
    (length (filter is_ascii_digit ip) <= int_max_str_digits)%nat ->
    clean_int_br (PyStr (ws1 ++ ip ++ ws2))
    = Ok (Z.of_N (digits_value (filter is_ascii_digit ip))).
Proof.
  intros ws1 ip ws2 H1 H2 Hip Hlen.
  destruct (integer_part_digits _ Hip) as [Hf Hne].
  assert (Hd : forallb is_ascii_digit (filter is_ascii_digit ip) = true).
  { apply forallb_forall. intros c Hc. apply filter_In in Hc. tauto. }
  cbn [clean_int_br]. change (py ".") with [46%N].
  rewrite replace_char_remove, !filter_app, Hf.
  rewrite (spaces_hold_no_point _ H1), (spaces_hold_no_point _ H2).
  assert (Hns : forallb (fun c => negb (is_space c))
                        (filter is_ascii_digit ip) = true).
  { apply forallb_forall. intros c Hc. rewrite forallb_forall in Hd.
    apply negb_true_iff, digit_not_space, Hd, Hc. }
  unfold strip. rewrite strip_by_sandwich;
    [| exact H1 | exact H2 | apply lstrip_by_none, Hns
     | apply lstrip_by_none, forallb_rev, Hns].
  rewrite py_int_digits by assumption. reflexivity.
Qed.

Lemma clean_int_br_thousands_witness :
  clean_int_br (PyStr (py " " ++ py "12.345" ++ py " ")) = Ok 12345%Z.
Proof.
  apply (clean_int_br_thousands (py " ") (py "12.345") (py " "));
    try reflexivity.
  apply Nat.leb_le. vm_compute. reflexivity.
Defined.

(** ** Strings that [clean_int_br] turns into zero *)

Lemma lstrip_by_keeps (ws : char -> bool) (c : char) (s : str) :
  In c s -> ws c = false -> In c (lstrip_by ws s).
Proof.
  intros Hin Hc. induction s as [|x s IH]; [contradiction |].
  cbn [lstrip_by]. destruct Hin as [-> | Hin].
  - rewrite Hc. left. reflexivity.
  - destruct (ws x); [apply IH, Hin | right; exact Hin].
Qed.

Lemma strip_by_keeps (ws : char -> bool) (c : char) (s : str) :
  In c s -> ws c = false -> In c (strip_by ws s).
Proof.
  intros Hin Hc. unfold strip_by. apply (proj1 (in_rev _ _)).
  apply lstrip_by_keeps; [|exact Hc]. apply (proj1 (in_rev _ _)).
  apply lstrip_by_keeps; assumption.
Qed.

Lemma ascii_space_is_space (c : char) :
  is_ascii_space c = true -> is_space c = true.
Proof.
  unfold is_ascii_space. intros H.
  assert (D : c = 9%N \/ c = 10%N \/ c = 11%N \/ c = 12%N \/ c = 13%N
              \/ c = 32%N).
  { apply orb_true_iff in H. destruct H as [H | H].
    - apply andb_true_iff in H. destruct H as [H1 H2].
      apply N.leb_le in H1. apply N.leb_le in H2. lia.
    - apply N.eqb_eq in H. lia. }
  destruct D as [-> | [-> | [-> | [-> | [-> | ->]]]]]; reflexivity.
Qed.

Lemma foreign_stray (c : char) : foreign c = true -> stray c = true.
Proof.
  unfold foreign, stray. rewrite !negb_true_iff, !orb_false_iff.
  intros [[[[[H1 H2] _] H3] H4] H5]. repeat split; try assumption.
  - destruct (is_ascii_digit c) eqn:E; [|reflexivity].
    rewrite (ascii_digit_decimal _ E) in H1. discriminate.
  - destruct (is_ascii_space c) eqn:E; [|reflexivity].
    rewrite (ascii_space_is_space _ E) in H2. discriminate.
Qed.

Lemma to_ascii_foreign (s : str) :
  (exists c, In c s /\ foreign c = true) ->
  exists c', In c' (to_ascii s) /\ stray c' = true.
Proof.
  induction s as [|c0 s IH]; intros [c [Hin Hc]]; [contradiction |].
  assert (T : c0 = c \/
              (c0 <> c /\ exists c', In c' (to_ascii s) /\ stray c' = true)).
  { destruct (N.eq_dec c0 c) as [E | E]; [left; exact E |]. right.
    split; [exact E |]. apply IH. exists c.
    destruct Hin as [Hin | Hin]; [contradiction | auto]. }
  cbn [to_ascii]. destruct (c0 <? 127)%N.
  - destruct T as [-> | [_ [c' [H1 H2]]]].
    + exists c. split; [left; reflexivity | apply foreign_stray, Hc].
    + exists c'. split; [right; exact H1 | exact H2].
  - destruct (is_space c0) eqn:Es.
    + destruct T as [-> | [_ [c' [H1 H2]]]].
      * unfold foreign in Hc. rewrite Es, orb_true_r in Hc. discriminate.
      * exists c'. split; [right; exact H1 | exact H2].
    + destruct (todecimal c0) as [d|] eqn:Ed.
      * destruct T as [-> | [_ [c' [H1 H2]]]].
        -- unfold foreign, is_decimal in Hc. rewrite Ed in Hc. discriminate.
        -- exists c'. split; [right; exact H1 | exact H2].
      * exists 63%N. split; [left; reflexivity | reflexivity].
Qed.

Lemma py_int_foreign (s : str) :
  (exists c, In c s /\ foreign c = true) -> py_int s = Raise ValueError.
Proof.
  intros H. apply to_ascii_foreign in H. destruct H as [c [Hin Hc]].
  assert (Hc' := Hc). unfold stray in Hc'.
  rewrite negb_true_iff, !orb_false_iff in Hc'.
  destruct Hc' as [[[[Hd Hs] Hu] Hp] Hm].
  unfold py_int.
  pose proof (strip_by_keeps is_ascii_space _ _ Hin Hs) as Ha.
  destruct (take_sign _) as [neg body] eqn:E.
  assert (Hb : In c body).
  { destruct (strip_by is_ascii_space (to_ascii s)) as [|h t];
      [contradiction |]. cbn [take_sign] in E.
    destruct (char_eqb h 45%N) eqn:E1.
    - inversion E; subst. destruct Ha as [<- | Ha]; [congruence | exact Ha].
    - destruct (char_eqb h 43%N) eqn:E2; inversion E; subst;
        [destruct Ha as [<- | Ha]; [congruence | exact Ha] | exact Ha]. }
  assert (Hds : forallb is_ascii_digit (remove_underscores body) = false).
  { apply not_true_is_false. intros F. rewrite forallb_forall in F.
    assert (Hin' : In c (remove_underscores body)).
    { apply filter_In. split; [exact Hb |]. rewrite Hu. reflexivity. }
    apply F in Hin'. congruence. }
  rewrite Hds, andb_false_r. reflexivity.
Qed.

(** Property X2. [clean_int_br] never raises, and it returns 0 for an argument that is
    not a string and for every string that holds a character no integer
    can be written with: a decimal comma, a letter, a currency marker. *)
Theorem clean_int_br_falls_back_to_zero :
  (forall s : str, existsb foreign s = true ->
                   clean_int_br (PyStr s) = Ok 0%Z)
  /\ (forall x : pyobj, (forall s, x <> PyStr s) -> clean_int_br x = Ok 0%Z)
  /\ (forall x : pyobj, exists v, clean_int_br x = Ok v).
Proof.
  split; [|split].
  - intros s H. apply existsb_exists in H. destruct H as [c [Hin Hc]].
    assert (Hc' := Hc). unfold foreign in Hc'.
    rewrite negb_true_iff, !orb_false_iff in Hc'.
    destruct Hc' as [[[[[_ Hs] Hp] _] _] _].
    cbn [clean_int_br]. change (py ".") with [46%N].
    rewrite replace_char_remove. rewrite py_int_foreign; [reflexivity |].
    exists c. split; [|exact Hc]. apply strip_by_keeps; [|exact Hs].
    apply filter_In. split; [exact Hin |]. rewrite Hp. reflexivity.
  - intros [s| | |] H; try reflexivity. exfalso. exact (H s eq_refl).
  - apply clean_int_br_total.
Qed.

Lemma clean_int_br_falls_back_to_zero_witness :
  clean_int_br (PyStr (py "1.000,00")) = Ok 0%Z.
Proof.
  apply (proj1 clean_int_br_falls_back_to_zero). vm_compute. reflexivity.
Defined.

(** ** The split on the registration code *)

Lemma cpb_at_length (c : char) (t : str) :
  cpb_at (c :: t) = true -> (13 <= length t)%nat.
Proof.
  cbn [cpb_at]. rewrite !andb_true_iff. intros [[_ H] _].
  apply Nat.eqb_eq in H. rewrite length_firstn in H. lia.
Qed.

Lemma cpb_at_code (s : str) :
  cpb_at s = true ->
  cpb_at (firstn 14 s) = true /\ length (firstn 14 s) = 14%nat.
Proof.
  destruct s as [|c t]; [discriminate |]. intros H.
  pose proof (cpb_at_length _ _ H) as L.
  change (firstn 14 (c :: t)) with (c :: firstn 13 t).
  cbn [cpb_at length] in *. rewrite firstn_firstn.
  change (Nat.min 13 13) with 13%nat. split; [exact H |].
  rewrite length_firstn. lia.
Qed.

Lemma cpb_at_prefix (p q : str) :
  cpb_at p = true -> cpb_at (p ++ q) = true.
Proof.
  destruct p as [|c t]; [discriminate |]. intros H.
  pose proof (cpb_at_length _ _ H) as L. cbn [app cpb_at] in *.
  rewrite firstn_app. replace (13 - length t)%nat with 0%nat by lia.
  rewrite firstn_O, app_nil_r. exact H.
Qed.

Lemma cpb_split_go_shape (s : str) :
  forall k, (k <= length s)%nat ->
    concat (cpb_split_go s k) = skipn k s
    /\ Nat.odd (length (cpb_split_go s k)) = true
    /\ codes_at_odd (cpb_split_go s k) = true.
Proof.
  induction s as [|c t IH]; intros k Hk.
  - cbn in Hk. assert (k = 0)%nat by lia. subst. cbn. auto.
  - destruct k as [|k].
    + cbn [cpb_split_go skipn]. destruct (cpb_at (c :: t)) eqn:E.
      * pose proof (cpb_at_length _ _ E) as L.
        destruct (IH 13%nat L) as [H1 [H2 H3]].
        destruct (cpb_at_code _ E) as [C1 C2].
        split; [|split].
        -- cbn [concat app]. rewrite H1.
           change (skipn 13 t) with (skipn 14 (c :: t)).
           apply firstn_skipn.
        -- cbn [length]. exact H2.
        -- cbn [codes_at_odd]. rewrite C1, C2, H3. reflexivity.
      * destruct (IH 0%nat (Nat.le_0_l _)) as [H1 [H2 H3]].
        destruct (cpb_split_go t 0) as [|f fs];
          [discriminate H2 |].
        cbn [concat skipn] in H1. split; [|split].
        -- cbn [concat app]. rewrite H1. reflexivity.
        -- exact H2.
        -- destruct fs; exact H3.
    + cbn [cpb_split_go skipn]. apply IH. cbn in Hk. lia.
Qed.

Lemma header_holds_no_code (s : str) :
  has_cpb (hd [] (cpb_split s)) = false.
Proof.
  unfold cpb_split. induction s as [|c t IH]; [reflexivity |].
  cbn [cpb_split_go]. destruct (cpb_at (c :: t)) eqn:E; [reflexivity |].
  destruct (@cpb_split_go_shape t 0%nat (Nat.le_0_l _)) as [H1 _].
  destruct (cpb_split_go t 0) as [|f fs] eqn:G.
  - exfalso. exact (cpb_split_go_nonempty _ _ G).
  - cbn [hd] in *. cbn [has_cpb]. rewrite IH, orb_false_r.
    apply not_true_is_false. intros F.
    apply (cpb_at_prefix (c :: f) (concat fs)) in F.
    cbn [concat skipn] in H1. cbn [app] in F. rewrite H1 in F. congruence.
Qed.

Lemma has_cpb_parts (s : str) :
  has_cpb s = true <-> (3 <= length (cpb_split s))%nat.
Proof.
  split.
  - unfold cpb_split. induction s as [|c t IH]; [discriminate |].
    cbn [has_cpb cpb_split_go]. destruct (cpb_at (c :: t)) eqn:E.
    + intros _. cbn [length].
      destruct (cpb_split_go t 13) eqn:G;
        [exfalso; exact (cpb_split_go_nonempty _ _ G) | cbn [length]; lia].
    + cbn [orb]. intros H. specialize (IH H).
      destruct (cpb_split_go t 0); cbn [length] in *; lia.
  - intros H. destruct (has_cpb s) eqn:E; [reflexivity |].
    rewrite (cpb_split_no_match _ E) in H. cbn in H. lia.
Qed.

(** Property X3. The split loses nothing and has a fixed shape: the parts, put end to
    end, give the line back; their number is odd; every second part is a
    registration code of fourteen characters; the first part holds no
    code; and there are three parts or more exactly when the pattern
    matches somewhere in the line. *)
Theorem cpb_split_lossless :
  forall s : str,
    concat (cpb_split s) = s
    /\ Nat.odd (length (cpb_split s)) = true
    /\ codes_at_odd (cpb_split s) = true
    /\ has_cpb (hd [] (cpb_split s)) = false
    /\ (has_cpb s = true <-> (3 <= length (cpb_split s))%nat).
Proof.
  intros s.
  destruct (@cpb_split_go_shape s 0%nat (Nat.le_0_l _)) as [H1 [H2 H3]].
  split; [exact H1 |]. split; [exact H2 |]. split; [exact H3 |].
  split; [apply header_holds_no_code | apply has_cpb_parts].
Qed.

(** Property X4. A line gives a row exactly when it passes the year filter, the code
    pattern matches in it, and at least two tokens follow the last code;
    every other line is passed over in silence. *)
Theorem process_line_emits_iff :
  forall raw : str,
    ((exists r, process_line raw = Ok (Some r)) <->
     is_data_line raw = true
     /\ has_cpb (strip raw) = true
     /\ (2 <= length (split (strip (last (cpb_split (strip raw)) []))))%nat)
    /\ ((forall r, process_line raw <> Ok (Some r)) ->
        process_line raw = Ok None).
Proof.
  intros raw. pose proof (process_line_cases raw) as C. cbn zeta in C.
  split; [split |].
  - intros [r Hr]. apply process_line_emit in Hr. cbn zeta in Hr.
    destruct Hr as [H1 [H2 [H3 _]]]. split; [exact H1 |].
    split; [apply has_cpb_parts; exact H2 | exact H3].
  - intros [H1 [H2 H3]]. apply has_cpb_parts in H2.
    rewrite H1, (proj2 (Nat.leb_le _ _) H2), (proj2 (Nat.leb_le _ _) H3) in C.
    exact C.
  - intros H. destruct (_ && _); [|exact C].
    destruct C as [r Hr]. exfalso. exact (H r Hr).
Qed.

Lemma process_line_emits_iff_witness :
  exists r, process_line example_line = Ok (Some r).
Proof.
  apply (proj2 (proj1 (process_line_emits_iff example_line))).
  split; [vm_compute; reflexivity |].
  split; [vm_compute; reflexivity |].
  apply Nat.leb_le. vm_compute. reflexivity.
Defined.

(** ** The loops over lines and pages *)

(** Property X6. The scan of a list of lines is never interrupted, keeps the rows
    already in [data] as they are, and appends what each line gives, in
    the order of the lines: at most one row for each line. *)
Theorem scan_lines_rows :
  forall (lines : list str) (data : list Record_),
    scan_lines lines data = (data ++ flat_map line_rows lines, None)
    /\ (length (flat_map line_rows lines) <= length lines)%nat.
Proof.
  induction lines as [|l rest IH]; intros data.
  - cbn. rewrite app_nil_r. auto.
  - cbn [scan_lines flat_map]. unfold line_rows at 1 3.
    destruct (process_line_never_raises l) as [[r|] ->].
    + destruct (IH (data ++ [r])) as [-> L]. rewrite <- app_assoc.
      split; [reflexivity | cbn [app length]; lia].
    + destruct (IH data) as [-> L]. split; [reflexivity | cbn; lia].
Qed.

Lemma split_on_app (sep : char) (a b : str) :
  split_on sep (a ++ sep :: b) = split_on sep a ++ split_on sep b.
Proof.
  induction a as [|c a IH]; cbn [app split_on].
  - unfold char_eqb. rewrite N.eqb_refl. reflexivity.
  - rewrite IH. destruct (char_eqb c sep); [reflexivity |].
    destruct (split_on sep a) as [|f fs] eqn:E;
      [exfalso; exact (split_on_nonempty _ _ E) | reflexivity].
Qed.

Lemma scan_text (t : str) (data : list Record_) :
  scan_page (mkPage (Ok (Some t))) data
  = (data ++ flat_map line_rows (split_on 10%N t), None).
Proof.
  unfold scan_page. cbn [extract_text]. destruct t as [|c t].
  - cbn. rewrite app_nil_r. reflexivity.
  - apply scan_lines_rows.
Qed.

(** Property X7. Where the PDF library breaks the pages does not matter, as long as it
    breaks them between two lines: a page whose text is [t1], a newline
    and [t2] leaves the scan in the same state as two pages with the texts
    [t1] and [t2]. *)
Theorem page_break_at_newline :
  forall (t1 t2 : str) (before after : list page) (data : list Record_),
    scan_pages (before ++ mkPage (Ok (Some (t1 ++ 10%N :: t2))) :: after) data
    = scan_pages (before ++ mkPage (Ok (Some t1)) :: mkPage (Ok (Some t2))
                         :: after) data.
Proof.
  intros t1 t2 before after. induction before as [|p ps IH]; intros data.
  - cbn [app scan_pages]. rewrite !scan_text.
    rewrite split_on_app, flat_map_app, app_assoc. reflexivity.
  - cbn [app scan_pages]. destruct (scan_page p data) as [d [e|]];
      [reflexivity | apply IH].
Qed.

(** Property X8. A batch is scanned file by file: the table and the error list of
    [ds1 ++ ds2] are those of [ds1] followed by those of [ds2], and an
    empty batch gives an empty table and no error. *)
Theorem parse_ancine_pdf_app :
  forall ds1 ds2 : list document,
    parse_ancine_pdf (ds1 ++ ds2)
    = (fst (parse_ancine_pdf ds1) ++ fst (parse_ancine_pdf ds2),
       snd (parse_ancine_pdf ds1) ++ snd (parse_ancine_pdf ds2))
    /\ parse_ancine_pdf [] = ([], []).
Proof.
  intros ds1 ds2. unfold parse_ancine_pdf. rewrite !scan_documents_spec.
  cbn [fst snd app]. rewrite !flat_map_app. split; reflexivity.
Qed.

(* ================================================================== *)
(** * Further properties of the aggregation                            *)
(* ================================================================== *)

(** ** Keys kept distinct and in increasing order *)

Section SortedInsert.
Variable K : Type.
Variables eqb ltb : K -> K -> bool.
Hypothesis eqb_spec : forall a b, eqb a b = true <-> a = b.
Hypothesis ltb_irrefl : forall a, ltb a a = false.
Hypothesis ltb_trans :
  forall a b c, ltb a b = true -> ltb b c = true -> ltb a c = true.
Hypothesis ltb_total :
  forall a b, a <> b -> ltb a b = false -> ltb b a = true.

Lemma insert_sorted_In (k k0 : K) (ks : list K) :
  In k (insert_sorted eqb ltb k0 ks) <-> k = k0 \/ In k ks.
Proof.
  induction ks as [|h t IH]; cbn [insert_sorted In].
  - intuition congruence.
  - destruct (eqb k0 h) eqn:E.
    + apply eqb_spec in E. subst. cbn [In]. intuition congruence.
    + destruct (ltb k0 h); cbn [In]; rewrite ?IH; intuition congruence.
Qed.

Lemma insert_sorted_sorted (k : K) (ks : list K) :
  StronglySorted (fun a b => ltb a b = true) ks ->
  StronglySorted (fun a b => ltb a b = true) (insert_sorted eqb ltb k ks).
Proof.
  induction ks as [|h t IH]; intros H; cbn [insert_sorted].
  - constructor; constructor.
  - inversion H as [|? ? Ht Hh]; subst.
    destruct (eqb k h) eqn:E; [exact H |].
    destruct (ltb k h) eqn:L.
    + constructor; [exact H |]. constructor; [exact L |].
      rewrite Forall_forall in *. intros x Hx.
      apply (@ltb_trans k h x); [exact L | exact (Hh x Hx)].
    + constructor; [apply IH, Ht |]. rewrite Forall_forall in *.
      intros x Hx. apply insert_sorted_In in Hx. destruct Hx as [-> | Hx].
      * apply ltb_total; [|exact L]. intros ->.
        assert (T : eqb h h = true) by (apply eqb_spec; reflexivity).
        congruence.
      * exact (Hh x Hx).
Qed.

Lemma sorted_NoDup (ks : list K) :
  StronglySorted (fun a b => ltb a b = true) ks -> NoDup ks.
Proof.
  induction 1 as [|h t _ IH Hh]; constructor; [|exact IH].
  intros Hin. rewrite Forall_forall in Hh. specialize (Hh h Hin).
  cbn in Hh. rewrite ltb_irrefl in Hh. discriminate.
Qed.

Lemma insert_sorted_length (k : K) (ks : list K) :
  (length (insert_sorted eqb ltb k ks) <= S (length ks))%nat.
Proof.
  induction ks as [|h t IH]; cbn [insert_sorted length]; [lia |].
  destruct (eqb k h); [cbn [length]; lia |].
  destruct (ltb k h); cbn [length]; lia.
Qed.

End SortedInsert.

(** ** Sums over the groups *)

Section Conservation.
Variables A K : Type.
Variable keyf : A -> K.
Variable eqb : K -> K -> bool.
Variable val : A -> Z.
Hypothesis eqb_spec : forall a b, eqb a b = true <-> a = b.





End Conservation.

(** ** The order of the keys *)

Lemma str_ltb_cons (x y : char) (a b : str) :
  str_ltb (x :: a) (y :: b) = true
  <-> (x < y)%N \/ (x = y /\ str_ltb a b = true).
Proof.
  cbn [str_ltb]. destruct (x <? y)%N eqn:E1.
  - apply N.ltb_lt in E1. intuition.
  - apply N.ltb_ge in E1. destruct (y <? x)%N eqn:E2.
    + apply N.ltb_lt in E2. split; [discriminate |].
      intros [H | [H _]]; lia.
    + apply N.ltb_ge in E2. assert (x = y) by lia. subst.
      split; [auto | intros [H | [_ H]]; [lia | exact H]].
Qed.

Lemma str_ltb_irrefl (a : str) : str_ltb a a = false.
Proof.
  induction a as [|x a IH]; [reflexivity |].
  apply not_true_is_false. intros H. apply str_ltb_cons in H.
  destruct H as [H | [_ H]]; [lia | congruence].
Qed.

Lemma str_ltb_trans (a b c : str) :
  str_ltb a b = true -> str_ltb b c = true -> str_ltb a c = true.
Proof.
  revert b c. induction a as [|x a IH]; intros [|y b] [|z c] H1 H2;
    try discriminate; try reflexivity.
  apply str_ltb_cons in H1. apply str_ltb_cons in H2. apply str_ltb_cons.
  destruct H1 as [H1 | [-> H1]], H2 as [H2 | [-> H2]];
    [left; lia | left; exact H1 | left; exact H2 |].
  right. split; [reflexivity | exact (IH _ _ H1 H2)].
Qed.

Lemma str_ltb_total (a b : str) :
  a <> b -> str_ltb a b = false -> str_ltb b a = true.
Proof.
  revert b. induction a as [|x a IH]; intros [|y b] Hne H;
    try congruence; try reflexivity; try discriminate.
  apply str_ltb_cons. destruct (N.lt_trichotomy x y) as [L | [E | L]].
  - exfalso. assert (T : str_ltb (x :: a) (y :: b) = true)
      by (apply str_ltb_cons; left; exact L). congruence.
  - subst y. right. split; [reflexivity |]. apply IH; [congruence |].
    apply not_true_is_false. intros T.
    assert (T' : str_ltb (x :: a) (x :: b) = true)
      by (apply str_ltb_cons; right; auto). congruence.
  - left. exact L.
Qed.

Lemma key_ltb_irrefl (a : key) : key_ltb a a = false.
Proof.
  destruct a as [t n]. unfold key_ltb. cbn [fst snd].
  rewrite str_ltb_irrefl. destruct n; cbn; rewrite andb_false_r; reflexivity.
Qed.

Lemma key_ltb_trans (a b c : key) :
  key_ltb a b = true -> key_ltb b c = true -> key_ltb a c = true.
Proof.
  destruct a as [ta na], b as [tb nb], c as [tc nc]. unfold key_ltb.
  cbn [fst snd]. rewrite !orb_true_iff, !andb_true_iff, !str_eqb_eq.
  intros [H1 | [-> H1]] [H2 | [-> H2]].
  - left. exact (str_ltb_trans _ _ _ H1 H2).
  - left. exact H1.
  - left. exact H2.
  - right. split; [reflexivity |]. destruct na, nb, nc; try discriminate.
Qed.

Lemma key_ltb_total (a b : key) :
  a <> b -> key_ltb a b = false -> key_ltb b a = true.
Proof.
  destruct a as [ta na], b as [tb nb]. unfold key_ltb. cbn [fst snd].
  intros Hne H. apply orb_false_iff in H. destruct H as [H1 H2].
  apply orb_true_iff. destruct (str_eqb ta tb) eqn:E.
  - apply str_eqb_eq in E. subst tb. right. rewrite str_eqb_refl.
    cbn [andb] in *. destruct na, nb; try reflexivity; try discriminate;
      exfalso; apply Hne; reflexivity.
  - left. apply str_ltb_total; [|exact H1]. intros ->.
    rewrite str_eqb_refl in E. discriminate.
Qed.

Lemma insert_key_generic (k : key) (ks : list key) :
  insert_key k ks = insert_sorted key_eqb key_ltb k ks.
Proof.
  induction ks as [|h t IH]; [reflexivity |].
  cbn [insert_key insert_sorted]. rewrite IH. reflexivity.
Qed.

Lemma group_keys_sorted (upper : str -> str) (df : list Record_) :
  StronglySorted (fun a b => key_ltb a b = true) (group_keys upper df)
  /\ (length (group_keys upper df) <= length df)%nat.
Proof.
  induction df as [|r df [IH1 IH2]]; [split; [constructor | apply le_n] |].
  cbn [group_keys fold_right]. fold (group_keys upper df).
  rewrite insert_key_generic. split.
  - apply insert_sorted_sorted;
      [apply key_eqb_eq | apply key_ltb_trans | apply key_ltb_total
       | exact IH1].
  - pose proof (insert_sorted_length key_eqb key_ltb (key_of upper r)
                  (group_keys upper df)). cbn [length]. lia.
Qed.

Lemma df_grouped_keys (upper : str -> str) (df : list Record_) :
  map (fun g => (g_Titulo_Norm g, g_Nacionalidade g)) (df_grouped upper df)
  = group_keys upper df.
Proof.
  unfold df_grouped. rewrite map_map. cbn [agg g_Titulo_Norm g_Nacionalidade].
  rewrite <- (map_id (group_keys upper df)) at 2. apply map_ext.
  intros [t n]. reflexivity.
Qed.

(** Property X9. [df_grouped] has exactly one row for each key that occurs in the
    table, in strictly increasing order of the keys; so it is never longer
    than the table, and it is empty only when the table is. *)
Theorem df_grouped_one_row_per_key :
  forall (upper : str -> str) (df : list Record_),
    let keys := map (fun g => (g_Titulo_Norm g, g_Nacionalidade g))
                    (df_grouped upper df) in
    StronglySorted (fun a b => key_ltb a b = true) keys
    /\ NoDup keys
    /\ (forall k, In k keys <-> exists r, In r df /\ key_of upper r = k)
    /\ (length (df_grouped upper df) <= length df)%nat
    /\ (df_grouped upper df = [] <-> df = []).
Proof.
  intros upper df. cbn zeta. rewrite df_grouped_keys.
  destruct (group_keys_sorted upper df) as [S L].
  split; [exact S |].
  split; [exact (@sorted_NoDup key key_ltb key_ltb_irrefl _ S) |].
  split; [intros k; apply group_keys_In |]. split.
  - unfold df_grouped. rewrite length_map. exact L.
  - split.
    + intros E. destruct df as [|r df']; [reflexivity |]. exfalso.
      assert (Hin : In (key_of upper r) (group_keys upper (r :: df'))).
      { apply group_keys_In. exists r. split; [left |]; reflexivity. }
      rewrite <- df_grouped_keys, E in Hin. exact Hin.
    + intros ->. reflexivity.
Qed.


(** ** Minimum, maximum and first title of a group *)

Lemma fold_min_spec (l : list Z) :
  forall a, In (fold_left Z.min l a) (a :: l)
            /\ forall x, In x (a :: l) -> (fold_left Z.min l a <= x)%Z.
Proof.
  induction l as [|y t IH]; intros a; cbn [fold_left].
  - split; [left; reflexivity | intros x [<- | []]; lia].
  - destruct (IH (Z.min a y)) as [H1 H2]. split.
    + destruct H1 as [H1 | H1]; [|right; right; exact H1].
      rewrite <- H1. destruct (Z.min_spec a y) as [[_ E] | [_ E]];
        rewrite E; [left | right; left]; reflexivity.
    + intros x Hx.
      assert (M : (fold_left Z.min t (Z.min a y) <= Z.min a y)%Z)
        by (apply H2; left; reflexivity).
      destruct Hx as [<- | [<- | Hx]]; [lia | lia |].
      apply H2. right. exact Hx.
Qed.

Lemma fold_max_spec (l : list Z) :
  forall a, In (fold_left Z.max l a) (a :: l)
            /\ forall x, In x (a :: l) -> (x <= fold_left Z.max l a)%Z.
Proof.
  induction l as [|y t IH]; intros a; cbn [fold_left].
  - split; [left; reflexivity | intros x [<- | []]; lia].
  - destruct (IH (Z.max a y)) as [H1 H2]. split.
    + destruct H1 as [H1 | H1]; [|right; right; exact H1].
      rewrite <- H1. destruct (Z.max_spec a y) as [[_ E] | [_ E]];
        rewrite E; [right; left | left]; reflexivity.
    + intros x Hx.
      assert (M : (Z.max a y <= fold_left Z.max t (Z.max a y))%Z)
        by (apply H2; left; reflexivity).
      destruct Hx as [<- | [<- | Hx]]; [lia | lia |].
      apply H2. right. exact Hx.
Qed.

Lemma min_of_spec (l : list Z) :
  l <> [] ->
  In (min_of l) l /\ forall x, In x l -> (min_of l <= x)%Z.
Proof.
  destruct l as [|a l]; [congruence |]. intros _. apply fold_min_spec.
Qed.

Lemma max_of_spec (l : list Z) :
  l <> [] ->
  In (max_of l) l /\ forall x, In x l -> (x <= max_of l)%Z.
Proof.
  destruct l as [|a l]; [congruence |]. intros _. apply fold_max_spec.
Qed.

Lemma find_filter (A : Type) (p : A -> bool) (l : list A) :
  find p l = hd_error (filter p l).
Proof.
  induction l as [|x l IH]; [reflexivity |]. cbn [find filter].
  destruct (p x); [reflexivity | exact IH].
Qed.


Section GroupRows.
Variable upper : str -> str.

Lemma group_rows_In (k : key) (df : list Record_) (r : Record_) :
  In r (group_rows upper k df) <-> In r df /\ key_of upper r = k.
Proof.
  unfold group_rows. rewrite filter_In, key_eqb_eq.
  split; intros [H1 H2]; split; congruence.
Qed.

(** The first year of a group is the year of one of its rows and is not
    after the year of any of them. *)
Lemma group_year (k : key) (df : list Record_) :
  group_rows upper k df <> [] ->
  (exists r, In r df /\ key_of upper r = k
             /\ Ano_Exibicao r
                = g_Ano_Exibicao (agg k (group_rows upper k df)))
  /\ (forall r, In r df -> key_of upper r = k ->
                (g_Ano_Exibicao (agg k (group_rows upper k df))
                 <= Ano_Exibicao r)%Z).
Proof.
  intros Hne. cbn [agg g_Ano_Exibicao].
  assert (Hm : map Ano_Exibicao (group_rows upper k df) <> []).
  { destruct (group_rows upper k df); [congruence | discriminate]. }
  destruct (min_of_spec Hm) as [H1 H2]. split.
  - apply in_map_iff in H1. destruct H1 as [r [E Hr]].
    apply group_rows_In in Hr. exists r. tauto.
  - intros r Hr Hk. apply H2, in_map. apply group_rows_In. auto.
Qed.

Lemma grouped_row_rows (k : key) (df : list Record_) (g : GroupedRow) :
  grouped_row upper k df = Some g ->
  g = agg k (group_rows upper k df) /\ group_rows upper k df <> [].
Proof.
  rewrite grouped_row_spec.
  destruct (existsb _ df) eqn:E; [|discriminate].
  intros H. inversion H. split; [reflexivity |].
  apply existsb_exists in E. destruct E as [r [Hr Hk]].
  intros F. assert (Hin : In r (group_rows upper k df))
    by (apply filter_In; auto).
  rewrite F in Hin. exact Hin.
Qed.

Lemma df_grouped_In (df : list Record_) (g : GroupedRow) :
  In g (df_grouped upper df) <->
  exists k, grouped_row upper k df = Some g.
Proof.
  unfold df_grouped. rewrite in_map_iff. split.
  - intros [k [<- Hk]]. exists k. rewrite grouped_row_spec.
    replace (existsb _ df) with true; [reflexivity |].
    symmetry. apply group_keys_In in Hk. destruct Hk as [r [Hr <-]].
    apply existsb_exists. exists r. split; [exact Hr | apply key_eqb_refl].
  - intros [k H]. rewrite grouped_row_spec in H.
    destruct (existsb _ df) eqn:E; [|discriminate]. inversion H.
    exists k. split; [reflexivity |]. apply group_keys_In.
    apply existsb_exists in E. destruct E as [r [Hr Hk]].
    apply key_eqb_eq in Hk. exists r. auto.
Qed.

End GroupRows.

(** Property X11. The row of a film carries as first year the earliest year among the
    film's rows (the year of one of them, not after any of them), and as
    title the title of the film's first row in table order. *)
Theorem grouped_row_first_year_and_title :
  forall (upper : str -> str) (df : list Record_) (k : key) (g : GroupedRow),
    grouped_row upper k df = Some g ->
    (exists r, In r df /\ key_of upper r = k
               /\ Ano_Exibicao r = g_Ano_Exibicao g)
    /\ (forall r, In r df -> key_of upper r = k ->
                  (g_Ano_Exibicao g <= Ano_Exibicao r)%Z)
    /\ option_map Titulo (find (fun r => key_eqb k (key_of upper r)) df)
       = Some (g_Titulo g).
Proof.
  intros upper df k g H. apply grouped_row_rows in H. destruct H as [-> Hne].
  destruct (group_year upper k df Hne) as [H1 H2].
  split; [exact H1 | split; [exact H2 |]].
  rewrite find_filter. fold (group_rows upper k df).
  destruct (group_rows upper k df); [congruence | reflexivity].
Qed.

Lemma grouped_row_first_year_and_title_witness :
  (exists r, In r rows_cba
             /\ key_of (fun s => s) r = (py "Filme Exemplo", Brasileira)
             /\ Ano_Exibicao r = 2009%Z)
  /\ (forall r, In r rows_cba ->
                key_of (fun s => s) r = (py "Filme Exemplo", Brasileira) ->
                (2009 <= Ano_Exibicao r)%Z)
  /\ option_map Titulo
       (find (fun r => key_eqb (py "Filme Exemplo", Brasileira)
                               (key_of (fun s => s) r)) rows_cba)
     = Some (py "Filme Exemplo").
Proof.
  apply (@grouped_row_first_year_and_title (fun s => s) rows_cba
           (py "Filme Exemplo", Brasileira)
           (mkGrouped (py "Filme Exemplo") Brasileira (py "Filme Exemplo")
                      300 (sum_float (map Renda rows_cba)) 2009)).
  vm_compute. reflexivity.
Defined.





(** ** The bounds of the period slider *)

(** Property X13. On a table that is not empty, the lower bound of the slider is the
    earliest year of the raw table; its upper bound is the latest first
    year of a film, which is not below the lower bound and not after the
    latest year of the raw table. *)
Theorem slider_bounds :
  forall (upper : str -> str) (df : list Record_),
    df <> [] ->
    slider_min_value (df_grouped upper df) = min_of (map Ano_Exibicao df)
    /\ (slider_min_value (df_grouped upper df)
        <= slider_max_value (df_grouped upper df))%Z
    /\ (slider_max_value (df_grouped upper df)
        <= max_of (map Ano_Exibicao df))%Z.
Proof.
  intros upper df Hdf. unfold slider_min_value, slider_max_value.
  set (G := df_grouped upper df).
  assert (HY : map g_Ano_Exibicao G <> []).
  { destruct df as [|r df']; [congruence |].
    assert (Hin : exists g, In g G).
    { destruct (grouped_row upper (key_of upper r) (r :: df')) as [g|] eqn:E.
      - exists g. apply df_grouped_In. eauto.
      - rewrite grouped_row_spec in E. cbn [existsb] in E.
        rewrite key_eqb_refl in E. discriminate. }
    destruct Hin as [g Hg]. destruct G; [contradiction | discriminate]. }
  assert (HD : map Ano_Exibicao df <> [])
    by (destruct df; [congruence | discriminate]).
  destruct (min_of_spec HY) as [m1 m2]. destruct (max_of_spec HY) as [x1 x2].
  destruct (min_of_spec HD) as [d1 d2]. destruct (max_of_spec HD) as [e1 e2].
  assert (Att : forall y, In y (map g_Ano_Exibicao G) ->
                          In y (map Ano_Exibicao df)).
  { intros y Hy. apply in_map_iff in Hy. destruct Hy as [g [<- Hg]].
    apply df_grouped_In in Hg. destruct Hg as [k Hk].
    apply grouped_row_rows in Hk. destruct Hk as [-> Hne].
    destruct (group_year upper k df Hne) as [[r [Hr [_ E]]] _].
    rewrite <- E. apply in_map, Hr. }
  split; [|split].
  - apply Z.le_antisymm.
    + apply in_map_iff in d1. destruct d1 as [r0 [E0 Hr0]].
      destruct (grouped_row upper (key_of upper r0) df) as [g0|] eqn:E.
      * assert (Hg0 : In g0 G) by (apply df_grouped_In; eauto).
        apply grouped_row_rows in E. destruct E as [-> Hne].
        destruct (group_year upper (key_of upper r0) df Hne) as [_ L].
        specialize (L r0 Hr0 eq_refl).
        specialize (m2 _ (in_map g_Ano_Exibicao _ _ Hg0)). lia.
      * rewrite grouped_row_spec in E.
        replace (existsb _ df) with true in E; [discriminate |].
        symmetry. apply existsb_exists. exists r0.
        split; [exact Hr0 | apply key_eqb_refl].
    + apply d2, Att, m1.
  - apply m2, x1.
  - apply e2, Att, x1.
Qed.

Lemma slider_bounds_witness :
  slider_min_value (df_grouped (fun s => s) rows_abc)
  = min_of (map Ano_Exibicao rows_abc)
  /\ (slider_min_value (df_grouped (fun s => s) rows_abc)
      <= slider_max_value (df_grouped (fun s => s) rows_abc))%Z
  /\ (slider_max_value (df_grouped (fun s => s) rows_abc)
      <= max_of (map Ano_Exibicao rows_abc))%Z.
Proof. apply (slider_bounds (fun s => s)). discriminate. Defined.

(** The upper bound can be strictly before the latest year of the table:
    a film shown from 2009 to 2011 counts for 2009 alone. *)
Example slider_upper_bound_is_a_first_year :
  slider_max_value (df_grouped (fun s => s) rows_abc) = 2009%Z
  /\ max_of (map Ano_Exibicao rows_abc) = 2011%Z.
Proof. split; vm_compute; reflexivity. Qed.

(** ** The yearly totals of the selection *)






(** ** The nationality of a row *)

Lemma startswith_spec (p s : str) :
  startswith p s = true <-> exists b, s = p ++ b.
Proof.
  revert s. induction p as [|x p IH]; intros s.
  - cbn. split; [intros _; exists s; reflexivity | reflexivity].
  - destruct s as [|y s]; cbn [startswith app].
    + split; [discriminate | intros [b E]; discriminate E].
    + rewrite andb_true_iff, char_eqb_eq, IH. split.
      * intros [-> [b ->]]. exists b. reflexivity.
      * intros [b E]. inversion E. subst. split; [reflexivity |].
        exists b. reflexivity.
Qed.

Lemma contains_spec (p s : str) :
  contains p s = true <-> exists a b, s = a ++ p ++ b.
Proof.
  induction s as [|y s IH]; cbn [contains].
  - rewrite orb_false_r, startswith_spec. split.
    + intros [b E]. exists [], b. exact E.
    + intros [a [b E]]. destruct a as [|x a]; [|discriminate E].
      exists b. exact E.
  - rewrite orb_true_iff, startswith_spec, IH. split.
    + intros [[b E] | [a [b E]]].
      * exists [], b. exact E.
      * exists (y :: a), b. rewrite E. reflexivity.
    + intros [a [b E]]. destruct a as [|x a].
      * left. exists b. exact E.
      * right. inversion E. exists a, b. reflexivity.
Qed.

(** Property X5. A row is Brazilian exactly when the word "Brasileira", spelled so,
    occurs in the text that follows the last registration code of its
    line; what the title holds plays no part. *)
Theorem nationality_from_trailer :
  forall (raw : str) (r : Record_),
    process_line raw = Ok (Some r) ->
    (Nacionalidade r = Brasileira <->
     exists a b, strip (last (cpb_split (strip raw)) [])
                 = a ++ py "Brasileira" ++ b)
    /\ (Nacionalidade r = Estrangeira <->
        ~ exists a b, strip (last (cpb_split (strip raw)) [])
                      = a ++ py "Brasileira" ++ b).
Proof.
  intros raw r H. apply process_line_emit in H. cbn zeta in H.
  destruct H as [_ [_ [_ [_ [_ [N _]]]]]]. rewrite N.
  rewrite <- contains_spec.
  destruct (contains (py "Brasileira") _); split; split;
    congruence || (intros F; exfalso; apply F; reflexivity) || auto.
Qed.

Lemma nationality_from_trailer_witness :
  (Nacionalidade example_record = Brasileira <->
   exists a b, strip (last (cpb_split (strip example_line)) [])
               = a ++ py "Brasileira" ++ b)
  /\ (Nacionalidade example_record = Estrangeira <->
      ~ exists a b, strip (last (cpb_split (strip example_line)) [])
                    = a ++ py "Brasileira" ++ b).
Proof.
  apply (@nationality_from_trailer example_line example_record).
  vm_compute. reflexivity.
Defined.

(** A film whose title holds the word is foreign all the same when the
    text after the code does not. *)
Example title_does_not_decide_nationality :
  option_map Nacionalidade
    (match process_line
             (py "2012 A Brasileira B0901024500000 35mm 10.000 50.000,00")
     with Ok o => o | Raise _ => None end)
  = Some Estrangeira.
Proof. vm_compute. reflexivity. Qed.
